(** * create_base_map.py: a shallow embedding and its specification

    The script reads a vector boundary file, reprojects it to Web Mercator,
    draws it over a tile basemap with ticks, legend, scale bar and north
    arrow, and saves the figure as a PNG.

    Conventions of the embedding:
    - Python [float] values are exact rationals ([Q]); rounding of binary64
      arithmetic is not modelled, and equality of coordinates is [Qeq].
    - Python [str] values are [string], one character a code point; the
      character tables (whitespace, letters, case) are those of the ASCII
      range, so what is said of [strip] and [title] is said of ASCII text.
      Statements that depend on the case of letters carry [is_ascii] as a
      hypothesis.
    - [os.path] is its POSIX implementation ([posixpath], [genericpath]).
    - The file system, standard streams, the tile service and the
      coordinate transformation library are fields of a [World]; an uncaught
      exception or a call of [exit] ends the run with an [Outcome].
    - Standard output is taken to be writable, and standard input to be the
      lines the interpreter hands to [input()] one by one. The run starts
      at line 124: what importing the libraries does is not part of it. *)

From Stdlib Require Import Ascii String QArith Qminmax Qround Qabs Lqa.
From stdpp Require Import gmap strings list pretty.

Open Scope Z_scope.

(** ** Python strings *)

Module PyStr.

(** The characters that are not letters of a literal are given by code. *)
Definition dquote : ascii := ascii_of_nat 34.
Definition squote : ascii := ascii_of_nat 39.
Definition slash : ascii := ascii_of_nat 47.
Definition dot : ascii := ascii_of_nat 46.
Definition underscore : ascii := ascii_of_nat 95.
Definition space : ascii := ascii_of_nat 32.

Definition code (c : ascii) : nat := nat_of_ascii c.

(** [str.isspace] on one ASCII character: TAB..CR, FS..US and the blank.
    White space beyond the ASCII range is not in this table. *)
Definition isspace (c : ascii) : bool :=
  ((9 <=? code c) && (code c <=? 13))%nat
  || ((28 <=? code c) && (code c <=? 32))%nat.

Definition isupper (c : ascii) : bool := ((65 <=? code c) && (code c <=? 90))%nat.
Definition islower (c : ascii) : bool := ((97 <=? code c) && (code c <=? 122))%nat.

(** [_PyUnicode_IsCased]: the character has a case. *)
Definition iscased (c : ascii) : bool := isupper c || islower c.

Definition upper (c : ascii) : ascii :=
  if islower c then ascii_of_nat (code c - 32) else c.
Definition lower (c : ascii) : ascii :=
  if isupper c then ascii_of_nat (code c + 32) else c.

Definition is_empty (s : string) : bool :=
  match s with EmptyString => true | String _ _ => false end.

(** [s[:n]] and [s[n:]] for [0 <= n]. *)
Fixpoint take (n : nat) (s : string) : string :=
  match n, s with
  | S n', String c r => String c (take n' r)
  | _, _ => EmptyString
  end.

Fixpoint drop (n : nat) (s : string) : string :=
  match n, s with
  | S n', String _ r => drop n' r
  | _, _ => s
  end.

(** [s[i:i+1]], the empty string out of range. *)
Definition char_at (i : nat) (s : string) : string := take 1 (drop i s).

(** [s.rfind(c)] for a one-character [c]: the highest index, or [-1]. *)
Fixpoint rfind (c : ascii) (s : string) : Z :=
  match s with
  | EmptyString => -1
  | String a r =>
      let i := rfind c r in
      if 0 <=? i then i + 1
      else if Ascii.eqb a c then 0 else -1
  end.

Definition startswith (c : ascii) (s : string) : bool :=
  match s with String a _ => Ascii.eqb a c | EmptyString => false end.

Fixpoint endswith (c : ascii) (s : string) : bool :=
  match s with
  | EmptyString => false
  | String a EmptyString => Ascii.eqb a c
  | String _ r => endswith c r
  end.

(** [s.replace(a, b)] for one-character [a] and [b]. *)
Fixpoint replace (a b : ascii) (s : string) : string :=
  match s with
  | EmptyString => EmptyString
  | String c r => String (if Ascii.eqb c a then b else c) (replace a b r)
  end.

(** [s.lstrip], [s.rstrip] and [s.strip] over a set of characters. *)
Fixpoint lstrip (drop_it : ascii -> bool) (s : string) : string :=
  match s with
  | EmptyString => EmptyString
  | String c r => if drop_it c then lstrip drop_it r else s
  end.

Fixpoint rstrip (drop_it : ascii -> bool) (s : string) : string :=
  match s with
  | EmptyString => EmptyString
  | String c r =>
      let r' := rstrip drop_it r in
      if is_empty r' && drop_it c then EmptyString else String c r'
  end.

Definition strip_with (drop_it : ascii -> bool) (s : string) : string :=
  rstrip drop_it (lstrip drop_it s).

(** [s.strip()]: whitespace. *)
Definition strip (s : string) : string := strip_with isspace s.

Fixpoint mem (c : ascii) (chars : string) : bool :=
  match chars with
  | EmptyString => false
  | String a r => Ascii.eqb a c || mem c r
  end.

(** [s.strip(chars)]. *)
Definition strip_chars (chars : string) (s : string) : string :=
  strip_with (fun c => mem c chars) s.

(** [s.title()] on ASCII text: the loop of [do_title], carrying
    [previous_is_cased], with the case tables above. On letters beyond the
    ASCII range Python uses title-case mappings that this function does not
    have. *)
Fixpoint title_from (previous_is_cased : bool) (s : string) : string :=
  match s with
  | EmptyString => EmptyString
  | String c r =>
      String (if previous_is_cased then lower c else upper c)
             (title_from (iscased c) r)
  end.

Definition title (s : string) : string := title_from false s.





End PyStr.

(** ** os.path (posixpath) *)

Module OsPath.
Import PyStr.

(** [posixpath.basename]: [i = p.rfind('/') + 1; return p[i:]]. *)
Definition basename (p : string) : string :=
  let i := rfind slash p + 1 in
  drop (Z.to_nat i) p.

(** The loop of [genericpath._splitext] that skips leading dots:
    [true] when some character in [filenameIndex .. dotIndex) is not a
    dot. [n] counts the indices still to visit. *)
Fixpoint has_non_dot (p : string) (filenameIndex n : nat) : bool :=
  match n with
  | O => false
  | S n' =>
      if negb (String.eqb (char_at filenameIndex p) (String dot EmptyString))
      then true
      else has_non_dot p (S filenameIndex) n'
  end.

(** [posixpath.splitext], that is [_splitext(p, '/', None, '.')]. *)
Definition splitext (p : string) : string * string :=
  let sepIndex := rfind slash p in
  let dotIndex := rfind dot p in
  if (sepIndex <? dotIndex)
     && has_non_dot p (Z.to_nat (sepIndex + 1))
                    (Z.to_nat (dotIndex - (sepIndex + 1)))
  then (take (Z.to_nat dotIndex) p, drop (Z.to_nat dotIndex) p)
  else (p, EmptyString).

(** [posixpath.join(a, b)]. *)
Definition join (a b : string) : string :=
  if startswith slash b then b
  else if is_empty a || endswith slash a then a +:+ b
  else a +:+ String slash b.

End OsPath.

(** ** Numbers and their text *)

Module Num.
Open Scope Q_scope.

Definition Qltb (a b : Q) : bool := negb (Qle_bool b a).

(** Rounding of a non-negative rational to the nearest integer, ties to
    the even one, as [format] does for a fixed number of digits. *)
Definition round_half_even (q : Q) : Z :=
  let f := Qfloor q in
  match Qcompare (q - inject_Z f) (1 # 2) with
  | Lt => f
  | Gt => (f + 1)%Z
  | Eq => if Z.even f then f else (f + 1)%Z
  end.

Definition two_digits (n : Z) : string :=
  pretty (n / 10)%Z +:+ pretty (n mod 10)%Z.

(** [f'{x:.2f}']. *)
Definition format_2f (x : Q) : string :=
  let n := round_half_even (Qabs x * 100) in
  (if Qltb x 0 then "-" else "")
    +:+ pretty (n / 100)%Z +:+ "." +:+ two_digits (n mod 100)%Z.

(** [numpy.linspace(start, stop, num)] with [endpoint=True]: the samples
    [i * step + start] for [i < num], [step = (stop - start) / (num - 1)],
    the last one overwritten by [stop]; a zero step takes the branch that
    divides the index first. *)
Definition linspace_sample (start stop : Q) (div : Q) (i : nat) : Q :=
  let delta := stop - start in
  let step := delta / div in
  if Qeq_bool step 0
  then (inject_Z (Z.of_nat i) / div) * delta + start
  else inject_Z (Z.of_nat i) * step + start.

Definition linspace (start stop : Q) (num : nat) : list Q :=
  let div := inject_Z (Z.of_nat (num - 1)) in
  let y := map (linspace_sample start stop div) (seq 0 num) in
  if (1 <? num)%nat then <[(num - 1)%nat := stop]> y else y.

End Num.

(** ** Vector geometry and coordinate reference systems *)

Module Geo.
Open Scope Q_scope.

Definition Point : Type := Q * Q.

(** A coordinate reference system is named by its EPSG code. *)
Definition CRS : Type := Z.
Definition epsg_4326 : CRS := 4326%Z.
Definition epsg_3857 : CRS := 3857%Z.

(** A [GeoDataFrame]: the reference system read from the file, if the
    file has one, and the coordinates of each feature. *)
Record GeoDataFrame : Type := mkGdf {
  gdf_crs : option CRS;
  gdf_geometry : list (list Point)
}.

Definition coords (g : GeoDataFrame) : list Point := concat (gdf_geometry g).

(** [total_bounds]: (minx, miny, maxx, maxy) over every coordinate; a
    frame without coordinates has none (numpy answers four NaN). *)
Definition Bounds : Type := Q * Q * Q * Q.

Definition grow (b : Bounds) (p : Point) : Bounds :=
  let '(minx, miny, maxx, maxy) := b in
  (Qmin minx (fst p), Qmin miny (snd p), Qmax maxx (fst p), Qmax maxy (snd p)).

Definition total_bounds (g : GeoDataFrame) : option Bounds :=
  match coords g with
  | [] => None
  | p :: ps => Some (fold_left grow ps (fst p, snd p, fst p, snd p))
  end.

End Geo.

(** ** The figure *)

Module Plot.
Import Geo.

Inductive HAlign : Type := HLeft | HCenter | HRight.
Inductive VAlign : Type := VTop | VCenter | VBottom | VBaseline.

(** What the position of a text is measured in: the data, or fractions of
    the axes ([transform=ax.transAxes]). *)
Inductive Transform : Type := TransData | TransAxes.

Record Line2D : Type := mkLine {
  line_xs : list Q;
  line_ys : list Q;
  line_width : Q
}.

Record Text : Type := mkText {
  text_x : Q;
  text_y : Q;
  text_s : string;
  text_ha : HAlign;
  text_va : VAlign;
  text_transform : Transform
}.

(** An arrow annotation in axes-fraction coordinates. *)
Record Annotation : Type := mkAnnotation {
  ann_s : string;
  ann_xy : Point;
  ann_xytext : Point
}.

(** A basemap image, as the tile service sent it. *)
Inductive Image : Type := TileImage (id : N).

Record Axes : Type := mkAxes {
  ax_polygons : list (list Point);
  ax_xlim : Q * Q;
  ax_ylim : Q * Q;
  ax_basemap : option Image;
  ax_xticks : list Q;
  ax_yticks : list Q;
  ax_xticklabels : list string;
  ax_yticklabels : list string;
  ax_grid : bool;
  ax_legend : list string;
  ax_lines : list Line2D;
  ax_texts : list Text;
  ax_annotations : list Annotation;
  ax_title : string;
  ax_xlabel : string;
  ax_ylabel : string
}.

(** What [contextily] does to the axes once it has the tiles: the image
    goes under the layers and the attribution of the provider is written in
    the lower left corner, at (0.005, 0.005) of the axes; the view is left
    as it was. *)
Definition with_basemap (img : Image) (attribution : string) (ax : Axes) : Axes :=
  mkAxes (ax_polygons ax) (ax_xlim ax) (ax_ylim ax)
    (Some img) (ax_xticks ax) (ax_yticks ax) (ax_xticklabels ax)
    (ax_yticklabels ax) (ax_grid ax) (ax_legend ax) (ax_lines ax)
    (ax_texts ax ++ [mkText 0.005 0.005 attribution HLeft VBaseline TransAxes])
    (ax_annotations ax) (ax_title ax) (ax_xlabel ax) (ax_ylabel ax).

(** [plt.subplots(1, 1)]: empty axes with the unit view. *)
Definition subplots : Axes :=
  mkAxes [] (0, 1)%Q (0, 1)%Q None [] [] [] [] false [] [] [] [] "" "" "".

End Plot.

(** ** The world the script runs in *)

Module Sys.
Import Geo Plot.

(** What a path holds: a vector file (shown parsed), an image written by
    [savefig], or anything else. *)
Inductive File : Type :=
| VectorFile (gdf : GeoDataFrame)
| PngFile (fig : Axes)
| OtherFile.

(** The calls that reach outside the process, in the order made. *)
Inductive Event : Type :=
| EPrint (line : string)
| EInput
| EExists (path : string)
| EMakedirs (dir : string)
| EReadFile (path : string)
| EFetchTiles (xlim ylim : Q * Q)
| ESaveFig (path : string)
| EShow.

Record World : Type := mkWorld {
  stdin : list string;                       (* the lines still to be read *)
  files : gmap string File;
  dirs : gset string;
  writable : string -> bool;                 (* may this path be created *)
  tiles : Q * Q -> Q * Q -> option Image;    (* the tile service *)
  transform : CRS -> CRS -> Point -> Point;  (* the projection library *)
  events : list Event
}.

Inductive Exn : Type :=
| EOFError
| DataSourceError     (* the file cannot be read as vector data *)
| ValueError (msg : string)
| ConnectionError     (* the tile service cannot be reached *)
| OSError.            (* a directory or file cannot be written *)

(** How a computation ends: a value, an uncaught exception, or [exit]. *)
Inductive Outcome (A : Type) : Type :=
| Ok (a : A)
| Raise (e : Exn)
| Exit (status : Z).
Arguments Ok {A} a.
Arguments Raise {A} e.
Arguments Exit {A} status.

Definition M (A : Type) : Type := World -> Outcome A * World.

#[global] Instance M_ret : MRet M := fun A a w => (Ok a, w).

#[global] Instance M_bind : MBind M := fun A B f m w =>
  match m w with
  | (Ok a, w') => f a w'
  | (Raise e, w') => (Raise e, w')
  | (Exit n, w') => (Exit n, w')
  end.

Definition raise {A} (e : Exn) : M A := fun w => (Raise e, w).
Definition exit {A} (status : Z) : M A := fun w => (Exit status, w).

(** The status the interpreter hands to the operating system. *)
Definition exit_status {A} (o : Outcome A) : Z :=
  match o with
  | Ok _ => 0
  | Raise _ => 1
  | Exit n => n
  end.

Definition log (e : Event) (w : World) : World :=
  mkWorld (stdin w) (files w) (dirs w) (writable w) (tiles w) (transform w)
          (events w ++ [e]).

(** [print(line)], standard output being writable. *)
Definition print (line : string) : M unit := fun w => (Ok tt, log (EPrint line) w).

(** [input()]: the next line of standard input without its line end, or
    [EOFError]. [stdin] holds the lines [input()] has not returned yet,
    also those the interpreter has already buffered. *)
Definition input : M string := fun w =>
  match stdin w with
  | [] => (Raise EOFError, log EInput w)
  | line :: rest =>
      (Ok line,
       mkWorld rest (files w) (dirs w) (writable w) (tiles w) (transform w)
               (events w ++ [EInput]))
  end.

(** [os.path.exists]. *)
Definition os_path_exists (path : string) : M bool := fun w =>
  (Ok (bool_decide (is_Some (files w !! path)) || bool_decide (path ∈ dirs w)),
   log (EExists path) w).

(** [os.makedirs(dir, exist_ok=True)]. *)
Definition makedirs (dir : string) : M unit := fun w =>
  if bool_decide (dir ∈ dirs w) then (Ok tt, log (EMakedirs dir) w)
  else if bool_decide (is_Some (files w !! dir))
  then (Raise OSError, log (EMakedirs dir) w)
  else if writable w dir
  then (Ok tt,
        mkWorld (stdin w) (files w) ({[dir]} ∪ dirs w) (writable w) (tiles w)
                (transform w) (events w ++ [EMakedirs dir]))
  else (Raise OSError, log (EMakedirs dir) w).

(** [gpd.read_file]. *)
Definition read_file (path : string) : M GeoDataFrame := fun w =>
  match files w !! path with
  | Some (VectorFile gdf) => (Ok gdf, log (EReadFile path) w)
  | _ => (Raise DataSourceError, log (EReadFile path) w)
  end.

(** The text of the exception [set_crs] raises. *)
Definition crs_mismatch : string :=
  "The GeoSeries already has a CRS which is not equal to the passed CRS. Specify 'allow_override=True' to allow replacing the existing CRS without doing any transformation. If you actually want to transform the geometries, use 'GeoSeries.to_crs' instead.".

(** [GeoDataFrame.set_crs(epsg=...)] with [allow_override=False]: a frame
    that has a different reference system is refused. *)
Definition set_crs (epsg : CRS) (gdf : GeoDataFrame) : M GeoDataFrame :=
  match gdf_crs gdf with
  | None => mret (mkGdf (Some epsg) (gdf_geometry gdf))
  | Some c =>
      if (c =? epsg)%Z then mret gdf
      else raise (ValueError crs_mismatch)
  end.

(** [GeoDataFrame.to_crs(epsg=...)]. *)
Definition to_crs (epsg : CRS) (gdf : GeoDataFrame) : M GeoDataFrame := fun w =>
  match gdf_crs gdf with
  | None => (Raise (ValueError "Cannot transform naive geometries."), w)
  | Some c =>
      if (c =? epsg)%Z then (Ok gdf, w)
      else (Ok (mkGdf (Some epsg)
                      (map (map (transform w c epsg)) (gdf_geometry gdf))), w)
  end.

(** [Transformer.from_crs(src, dst, always_xy=True)], used through
    [transform(xs, ys)] on two sequences. *)
Definition Transformer_from_crs (src dst : CRS) : M (Point -> Point) := fun w =>
  (Ok (transform w src dst), w).

Definition transform_seq (t : Point -> Point) (xs ys : list Q) : list Q * list Q :=
  let ps := map t (zip xs ys) in (map fst ps, map snd ps).

(** The attribution of [ctx.providers.OpenStreetMap.HOT]. *)
Definition attribution : string :=
  "(C) OpenStreetMap contributors, Tiles style by Humanitarian OpenStreetMap Team hosted by OpenStreetMap France".

(** [ctx.add_basemap(ax, crs=..., source=...)]: fetches the tiles that
    cover the current view, puts the image under the layers and writes the
    attribution on the axes. *)
Definition add_basemap (ax : Axes) : M Axes := fun w =>
  match tiles w (ax_xlim ax) (ax_ylim ax) with
  | Some img =>
      (Ok (with_basemap img attribution ax),
       log (EFetchTiles (ax_xlim ax) (ax_ylim ax)) w)
  | None => (Raise ConnectionError, log (EFetchTiles (ax_xlim ax) (ax_ylim ax)) w)
  end.

(** [plt.savefig]: creates or replaces the file. *)
Definition savefig (path : string) (fig : Axes) : M unit := fun w =>
  if writable w path
  then (Ok tt,
        mkWorld (stdin w) (<[path := PngFile fig]> (files w)) (dirs w)
                (writable w) (tiles w) (transform w) (events w ++ [ESaveFig path]))
  else (Raise OSError, log (ESaveFig path) w).

Definition show : M unit := fun w => (Ok tt, log EShow w).

(** File or network input and output, as opposed to the standard streams
    and the test whether a path exists. *)
Definition is_file_or_network_io (e : Event) : bool :=
  match e with
  | EMakedirs _ | EReadFile _ | EFetchTiles _ _ | ESaveFig _ => true
  | EPrint _ | EInput | EExists _ | EShow => false
  end.

End Sys.

(** ** Drawing calls on the axes *)

Module Ax.
Import Geo Plot.

Definition plot_gdf (gdf : GeoDataFrame) (ax : Axes) : Axes :=
  mkAxes (ax_polygons ax ++ gdf_geometry gdf) (ax_xlim ax) (ax_ylim ax)
    (ax_basemap ax) (ax_xticks ax) (ax_yticks ax) (ax_xticklabels ax)
    (ax_yticklabels ax) (ax_grid ax) (ax_legend ax) (ax_lines ax) (ax_texts ax)
    (ax_annotations ax) (ax_title ax) (ax_xlabel ax) (ax_ylabel ax).

(** [np.finfo(float).tiny], the smallest normal binary64 number. *)
Definition float_tiny : Q := 1 # (2 ^ 1022).

(** [matplotlib.transforms.nonsingular(vmin, vmax, expander, tiny)] on
    finite numbers: an interval that is empty, or negligible against its
    ends, is widened. *)
Definition nonsingular (vmin vmax expander tiny : Q) : Q * Q :=
  let '(vmin, vmax) := if Num.Qltb vmax vmin then (vmax, vmin) else (vmin, vmax) in
  let maxabsvalue := Qmax (Qabs vmin) (Qabs vmax) in
  if Num.Qltb maxabsvalue ((1000000 / tiny) * float_tiny)
  then (- expander, expander)
  else if Qle_bool (vmax - vmin) (maxabsvalue * tiny)
  then if Qeq_bool vmax 0 && Qeq_bool vmin 0
       then (- expander, expander)
       else (vmin - expander * Qabs vmin, vmax + expander * Qabs vmax)
  else (vmin, vmax).

(** [Axis._set_lim(v0, v1)] of a linear axis: the limits go through
    [Locator.nonsingular], that is [nonsingular] with [expander=.05], and
    keep their direction. *)
Definition set_lim (v0 v1 : Q) : Q * Q :=
  let reverse := Num.Qltb v1 v0 in
  let '(a, b) := nonsingular v0 v1 0.05 1e-15 in
  if reverse then (b, a) else (a, b).

Definition set_xlim (lo hi : Q) (ax : Axes) : Axes :=
  mkAxes (ax_polygons ax) (set_lim lo hi) (ax_ylim ax)
    (ax_basemap ax) (ax_xticks ax) (ax_yticks ax) (ax_xticklabels ax)
    (ax_yticklabels ax) (ax_grid ax) (ax_legend ax) (ax_lines ax) (ax_texts ax)
    (ax_annotations ax) (ax_title ax) (ax_xlabel ax) (ax_ylabel ax).

Definition set_ylim (lo hi : Q) (ax : Axes) : Axes :=
  mkAxes (ax_polygons ax) (ax_xlim ax) (set_lim lo hi)
    (ax_basemap ax) (ax_xticks ax) (ax_yticks ax) (ax_xticklabels ax)
    (ax_yticklabels ax) (ax_grid ax) (ax_legend ax) (ax_lines ax) (ax_texts ax)
    (ax_annotations ax) (ax_title ax) (ax_xlabel ax) (ax_ylabel ax).

Definition imshow (img : Image) (ax : Axes) : Axes :=
  mkAxes (ax_polygons ax) (ax_xlim ax) (ax_ylim ax)
    (Some img) (ax_xticks ax) (ax_yticks ax) (ax_xticklabels ax)
    (ax_yticklabels ax) (ax_grid ax) (ax_legend ax) (ax_lines ax) (ax_texts ax)
    (ax_annotations ax) (ax_title ax) (ax_xlabel ax) (ax_ylabel ax).

Definition set_xticks (ticks : list Q) (ax : Axes) : Axes :=
  mkAxes (ax_polygons ax) (ax_xlim ax) (ax_ylim ax)
    (ax_basemap ax) ticks (ax_yticks ax) (ax_xticklabels ax)
    (ax_yticklabels ax) (ax_grid ax) (ax_legend ax) (ax_lines ax) (ax_texts ax)
    (ax_annotations ax) (ax_title ax) (ax_xlabel ax) (ax_ylabel ax).

Definition set_yticks (ticks : list Q) (ax : Axes) : Axes :=
  mkAxes (ax_polygons ax) (ax_xlim ax) (ax_ylim ax)
    (ax_basemap ax) (ax_xticks ax) ticks (ax_xticklabels ax)
    (ax_yticklabels ax) (ax_grid ax) (ax_legend ax) (ax_lines ax) (ax_texts ax)
    (ax_annotations ax) (ax_title ax) (ax_xlabel ax) (ax_ylabel ax).

Definition set_xticklabels (labels : list string) (ax : Axes) : Axes :=
  mkAxes (ax_polygons ax) (ax_xlim ax) (ax_ylim ax)
    (ax_basemap ax) (ax_xticks ax) (ax_yticks ax) labels
    (ax_yticklabels ax) (ax_grid ax) (ax_legend ax) (ax_lines ax) (ax_texts ax)
    (ax_annotations ax) (ax_title ax) (ax_xlabel ax) (ax_ylabel ax).

Definition set_yticklabels (labels : list string) (ax : Axes) : Axes :=
  mkAxes (ax_polygons ax) (ax_xlim ax) (ax_ylim ax)
    (ax_basemap ax) (ax_xticks ax) (ax_yticks ax) (ax_xticklabels ax)
    labels (ax_grid ax) (ax_legend ax) (ax_lines ax) (ax_texts ax)
    (ax_annotations ax) (ax_title ax) (ax_xlabel ax) (ax_ylabel ax).

Definition grid (on : bool) (ax : Axes) : Axes :=
  mkAxes (ax_polygons ax) (ax_xlim ax) (ax_ylim ax)
    (ax_basemap ax) (ax_xticks ax) (ax_yticks ax) (ax_xticklabels ax)
    (ax_yticklabels ax) on (ax_legend ax) (ax_lines ax) (ax_texts ax)
    (ax_annotations ax) (ax_title ax) (ax_xlabel ax) (ax_ylabel ax).

Definition legend (labels : list string) (ax : Axes) : Axes :=
  mkAxes (ax_polygons ax) (ax_xlim ax) (ax_ylim ax)
    (ax_basemap ax) (ax_xticks ax) (ax_yticks ax) (ax_xticklabels ax)
    (ax_yticklabels ax) (ax_grid ax) labels (ax_lines ax) (ax_texts ax)
    (ax_annotations ax) (ax_title ax) (ax_xlabel ax) (ax_ylabel ax).

(** [ax.plot(xs, ys, linewidth=...)]; the view was fixed by [set_xlim]
    and [set_ylim], which switch autoscaling off. *)
Definition plot (xs ys : list Q) (linewidth : Q) (ax : Axes) : Axes :=
  mkAxes (ax_polygons ax) (ax_xlim ax) (ax_ylim ax)
    (ax_basemap ax) (ax_xticks ax) (ax_yticks ax) (ax_xticklabels ax)
    (ax_yticklabels ax) (ax_grid ax) (ax_legend ax)
    (ax_lines ax ++ [mkLine xs ys linewidth]) (ax_texts ax)
    (ax_annotations ax) (ax_title ax) (ax_xlabel ax) (ax_ylabel ax).

Definition text (x y : Q) (s : string) (ha : HAlign) (va : VAlign) (ax : Axes) : Axes :=
  mkAxes (ax_polygons ax) (ax_xlim ax) (ax_ylim ax)
    (ax_basemap ax) (ax_xticks ax) (ax_yticks ax) (ax_xticklabels ax)
    (ax_yticklabels ax) (ax_grid ax) (ax_legend ax) (ax_lines ax)
    (ax_texts ax ++ [mkText x y s ha va TransData])
    (ax_annotations ax) (ax_title ax) (ax_xlabel ax) (ax_ylabel ax).

Definition annotate (s : string) (xy xytext : Point) (ax : Axes) : Axes :=
  mkAxes (ax_polygons ax) (ax_xlim ax) (ax_ylim ax)
    (ax_basemap ax) (ax_xticks ax) (ax_yticks ax) (ax_xticklabels ax)
    (ax_yticklabels ax) (ax_grid ax) (ax_legend ax) (ax_lines ax) (ax_texts ax)
    (ax_annotations ax ++ [mkAnnotation s xy xytext])
    (ax_title ax) (ax_xlabel ax) (ax_ylabel ax).

Definition set_title (s : string) (ax : Axes) : Axes :=
  mkAxes (ax_polygons ax) (ax_xlim ax) (ax_ylim ax)
    (ax_basemap ax) (ax_xticks ax) (ax_yticks ax) (ax_xticklabels ax)
    (ax_yticklabels ax) (ax_grid ax) (ax_legend ax) (ax_lines ax) (ax_texts ax)
    (ax_annotations ax) s (ax_xlabel ax) (ax_ylabel ax).

Definition set_xlabel (s : string) (ax : Axes) : Axes :=
  mkAxes (ax_polygons ax) (ax_xlim ax) (ax_ylim ax)
    (ax_basemap ax) (ax_xticks ax) (ax_yticks ax) (ax_xticklabels ax)
    (ax_yticklabels ax) (ax_grid ax) (ax_legend ax) (ax_lines ax) (ax_texts ax)
    (ax_annotations ax) (ax_title ax) s (ax_ylabel ax).

Definition set_ylabel (s : string) (ax : Axes) : Axes :=
  mkAxes (ax_polygons ax) (ax_xlim ax) (ax_ylim ax)
    (ax_basemap ax) (ax_xticks ax) (ax_yticks ax) (ax_xticklabels ax)
    (ax_yticklabels ax) (ax_grid ax) (ax_legend ax) (ax_lines ax) (ax_texts ax)
    (ax_annotations ax) (ax_title ax) (ax_xlabel ax) s.

End Ax.

(** ** create_base_map.py *)

Module Script.
Import PyStr OsPath Num Geo Plot Sys.

(** The file name without directory and extension (line 21). *)
Definition shapefile_name (shapefile_path : string) : string :=
  fst (splitext (basename shapefile_path)).

(** The title: underscores to blanks, then [title()] (line 23). *)
Definition map_title (shapefile_path : string) : string :=
  title (replace underscore space (shapefile_name shapefile_path)).

(** Where the image goes (line 118). *)
Definition output_path (shapefile_path output_dir : string) : string :=
  join output_dir (shapefile_name shapefile_path +:+ "_basemap.png").

Section Layout.
Open Scope Q_scope.
Variable b : Bounds.

Let west : Q := fst (fst (fst b)).
Let south : Q := snd (fst (fst b)).
Let east : Q := snd (fst b).
Let north : Q := snd b.

(** Lines 38-43. *)
Definition x_range : Q := east - west.
Definition y_range : Q := north - south.
Definition x_padding : Q := x_range * 0.2.
Definition y_padding : Q := y_range * 0.2.

(** Lines 46-47. *)
Definition set_limits (ax : Axes) : Axes :=
  Ax.set_ylim (south - y_padding) (north + y_padding)
    (Ax.set_xlim (west - x_padding) (east + x_padding) ax).

(** Lines 56-57. *)
Definition x_ticks : list Q := linspace (west - x_padding) (east + x_padding) 6.
Definition y_ticks : list Q := linspace (south - y_padding) (north + y_padding) 6.

(** Lines 60-61: the ticks in degrees, for the labels only. *)
Definition x_tick_lons (transformer : Point -> Point) : list Q :=
  fst (transform_seq transformer x_ticks (repeat south (length x_ticks))).
Definition y_tick_lats (transformer : Point -> Point) : list Q :=
  snd (transform_seq transformer (repeat west (length y_ticks)) y_ticks).

(** Lines 64-73. *)
Definition set_graticule (transformer : Point -> Point) (ax : Axes) : Axes :=
  let ax := Ax.set_xticks x_ticks ax in
  let ax := Ax.set_yticks y_ticks ax in
  let ax := Ax.set_xticklabels
              (map (fun lon => format_2f lon +:+ "°E") (x_tick_lons transformer)) ax in
  let ax := Ax.set_yticklabels
              (map (fun lat => format_2f lat +:+ "°N") (y_tick_lats transformer)) ax in
  Ax.grid true ax.

(** Lines 81-83. *)
Definition scalebar_length : Q := 15000.
Definition scalebar_x_start : Q := east + x_padding - scalebar_length - 5000.
Definition scalebar_y : Q := south - y_padding + y_range * 0.05.

(** Lines 86-100: the bar, its caption, and the two end markers. *)
Definition draw_scalebar (ax : Axes) : Axes :=
  let ax := Ax.plot [scalebar_x_start; scalebar_x_start + scalebar_length]
                    [scalebar_y; scalebar_y] 6 ax in
  let ax := Ax.text (scalebar_x_start + scalebar_length / 2) (scalebar_y + 500)
                    "15 KM" HCenter VBottom ax in
  let ax := Ax.plot [scalebar_x_start; scalebar_x_start]
                    [scalebar_y - 300; scalebar_y + 300] 2 ax in
  Ax.plot [scalebar_x_start + scalebar_length; scalebar_x_start + scalebar_length]
          [scalebar_y - 300; scalebar_y + 300] 2 ax.
End Layout.

(** Lines 103-107. *)
Definition draw_north_arrow (ax : Axes) : Axes :=
  let '(x, y, arrow_length) := (0.95, 0.95, 0.05)%Q in
  Ax.annotate "N" (x, y) (x, y - arrow_length)%Q ax.

(** Lines 35-47: a frame without coordinates has NaN bounds, which
    [set_xlim] refuses. *)
Definition bounds_for_limits (gdf : GeoDataFrame) : M Bounds :=
  match total_bounds gdf with
  | Some b => mret b
  | None => raise (ValueError "Axis limits cannot be NaN or Inf")
  end.

Definition create_base_map (shapefile_path output_dir : string) : M unit :=
  gdf ← read_file shapefile_path;
  gdf4326 ← set_crs epsg_4326 gdf;
  gdf_wm ← to_crs epsg_3857 gdf4326;
  let ax := Ax.plot_gdf gdf_wm subplots in
  b ← bounds_for_limits gdf_wm;
  let ax := set_limits b ax in
  ax ← add_basemap ax;
  transformer ← Transformer_from_crs epsg_3857 epsg_4326;
  let ax := set_graticule b transformer ax in
  let ax := Ax.legend ["Study Area"] ax in
  let ax := draw_scalebar b ax in
  let ax := draw_north_arrow ax in
  let ax := Ax.set_title (map_title shapefile_path) ax in
  let ax := Ax.set_xlabel "Longitude" ax in
  let ax := Ax.set_ylabel "Latitude" ax in
  makedirs output_dir;;
  savefig (output_path shapefile_path output_dir) ax;;
  print ("Base map saved to: " +:+ output_path shapefile_path output_dir);;
  show.

(** Line 138. *)
Definition output_dir : string :=
  "C:\Users\NagaiLab\Gemini_conversation\Create_Base_Maps\output_base_maps".

(** Lines 137-147: what follows the check of the path. *)
Definition process (shapefile_path : string) : M unit :=
  makedirs output_dir;;
  print ("Processing shapefile: " +:+ shapefile_path);;
  print ("Output will be saved to: " +:+ output_dir);;
  create_base_map shapefile_path output_dir.

(** Lines 127-130. *)
Definition clean_path (line : string) : string :=
  strip_chars (String dquote (String squote EmptyString)) (strip line).

(** Lines 124-147, the body under [__name__ == "__main__"]. *)
Definition main : M unit :=
  print "Please enter the path to your shapefile/GeoJSON file:";;
  line ← input;
  let shapefile_path := clean_path line in
  found ← os_path_exists shapefile_path;
  if negb found
  then print ("Error: File not found at " +:+ shapefile_path);; exit 1
  else process shapefile_path.

End Script.

(** ** Vocabulary of the statements *)

Module Spec.
Import PyStr OsPath Geo Plot Sys.

(** Every character of [s] satisfies [P]. *)
Fixpoint all_chars (P : ascii -> bool) (s : string) : bool :=
  match s with
  | EmptyString => true
  | String c r => P c && all_chars P r
  end.

Definition first_char (s : string) : option ascii :=
  match s with String c _ => Some c | EmptyString => None end.

Fixpoint last_char (s : string) : option ascii :=
  match s with
  | EmptyString => None
  | String c EmptyString => Some c
  | String _ r => last_char r
  end.

Definition isquote (c : ascii) : bool :=
  mem c (String dquote (String squote EmptyString)).

(** [s] neither starts nor ends with a character of [P]. *)
Definition no_edge (P : ascii -> bool) (s : string) : bool :=
  match first_char s, last_char s with
  | Some a, Some z => negb (P a) && negb (P z)
  | _, _ => true
  end.





(** The events a computation added to the trace. *)
Definition new_events (w w' : World) : list Event :=
  List.skipn (length (events w)) (events w').

(** The run of [m] from [w] ends normally; the world it leaves. *)
Definition completes (m : M unit) (w : World) : Prop := fst (m w) = Ok tt.
Definition after (m : M unit) (w : World) : World := snd (m w).

(** Assigning EPSG:4326 and reprojecting to EPSG:3857, where this is
    possible: the frame has no reference system, or has EPSG:4326. *)
Definition assignable (gdf : GeoDataFrame) : bool :=
  match gdf_crs gdf with
  | None => true
  | Some c => (c =? epsg_4326)%Z
  end.

Definition reprojected (w : World) (gdf : GeoDataFrame) : GeoDataFrame :=
  mkGdf (Some epsg_3857)
        (map (map (transform w epsg_4326 epsg_3857)) (gdf_geometry gdf)).

(** The axes [create_base_map] has built when it calls [savefig]. *)
Definition figure (shapefile_path : string) (gdf_wm : GeoDataFrame) (b : Bounds)
    (img : Image) (transformer : Point -> Point) : Axes :=
  Ax.set_ylabel "Latitude"
    (Ax.set_xlabel "Longitude"
      (Ax.set_title (Script.map_title shapefile_path)
        (Script.draw_north_arrow
          (Script.draw_scalebar b
            (Ax.legend ["Study Area"]
              (Script.set_graticule b transformer
                (with_basemap img attribution
                  (Script.set_limits b (Ax.plot_gdf gdf_wm subplots))))))))).

(** The padded limits of a bounding box, as lines 46-47 compute them. *)
Definition padded_xlim (b : Bounds) : Q * Q :=
  (fst (fst (fst b)) - Script.x_padding b, snd (fst b) + Script.x_padding b)%Q.
Definition padded_ylim (b : Bounds) : Q * Q :=
  (snd (fst (fst b)) - Script.y_padding b, snd b + Script.y_padding b)%Q.

(** The view the axes take when they are given these limits. *)
Definition view_xlim (b : Bounds) : Q * Q :=
  ax_xlim (Script.set_limits b subplots).
Definition view_ylim (b : Bounds) : Q * Q :=
  ax_ylim (Script.set_limits b subplots).

(** The interval from [lo] to [hi] is one the axes take as it is: its
    length is more than 1e-15 of the larger of its ends in absolute value,
    which is not below the threshold of [nonsingular]. *)
Definition substantial (lo hi : Q) : bool :=
  Qle_bool ((1000000 / 1e-15) * Ax.float_tiny) (Qmax (Qabs lo) (Qabs hi))
  && Num.Qltb (Qmax (Qabs lo) (Qabs hi) * 1e-15) (hi - lo).

Definition isdot (c : ascii) : bool := Ascii.eqb c dot.

(** Every character is in the ASCII range. *)
Definition is_ascii (s : string) : bool :=
  all_chars (fun c => (code c <? 128)%nat) s.

Definition head_not (P : ascii -> bool) (s : string) : Prop :=
  forall c, first_char s = Some c -> P c = false.
Definition last_not (P : ascii -> bool) (s : string) : Prop :=
  forall c, last_char s = Some c -> P c = false.



(** [m] leaves every file as it was, however it ends. *)
Definition frame {A : Type} (m : M A) : Prop :=
  forall w, files (snd (m w)) = files w.

(** [m] writes an image to [path] when it ends normally, and leaves every
    file as it was when it does not. *)
Definition saves_or_keeps (path : string) (m : M unit) : Prop :=
  forall w,
    match fst (m w) with
    | Ok _ => exists fig, files (snd (m w)) = <[path := PngFile fig]> (files w)
    | _ => files (snd (m w)) = files w
    end.

(** The paths [savefig] was called with, among some events. *)
Definition saved_paths (es : list Event) : list string :=
  flat_map (fun e => match e with ESaveFig path => [path] | _ => [] end) es.

(** [m] never calls [exit]. *)
Definition no_exit {A : Type} (m : M A) : Prop :=
  forall w n, fst (m w) <> Exit n.

(** [os.path.exists], as a test on the world. *)
Definition found (w : World) (path : string) : bool :=
  bool_decide (is_Some (files w !! path)) || bool_decide (path ∈ dirs w).

(** The world when the path has been read and looked up. *)
Definition checked (w : World) (rest : list string) (path : string) : World :=
  mkWorld rest (files w) (dirs w) (writable w) (tiles w) (transform w)
          (events w ++ [EPrint "Please enter the path to your shapefile/GeoJSON file:";
                        EInput; EExists path]).

End Spec.

(** ** A world to run the script in *)

Module Sample.
Import PyStr OsPath Num Geo Plot Sys Script Spec.
Open Scope Q_scope.

(** A stand-in for the projection: degrees to metres by a fixed factor. *)
Definition sample_transform (src dst : CRS) (pt : Point) : Point :=
  if (src =? epsg_4326)%Z then (fst pt * 10000, snd pt * 10000)
  else (fst pt / 10000, snd pt / 10000).

Definition sample_gdf : GeoDataFrame :=
  mkGdf None [[(1, 2); (3, 2); (3, 6); (1, 6)]].

(** The same area in a file that declares a UTM zone. *)
Definition utm_gdf : GeoDataFrame :=
  mkGdf (Some 32633%Z) [[(1, 2); (3, 2); (3, 6); (1, 6)]].

Definition sample_path : string := "/data/study_area.shp".

(** The user types a path that names nothing. *)
Definition missing_world : World :=
  mkWorld ["/data/nowhere.shp"] ∅ ∅ (fun _ => true)
          (fun _ _ => Some (TileImage 1)) sample_transform [].

(** The line the user types: the path between double quotes and blanks. *)
Definition sample_line : string :=
  "  " +:+ String dquote EmptyString +:+ sample_path
       +:+ String dquote EmptyString +:+ " ".

Definition sample_world : World :=
  mkWorld [sample_line]
          {[ sample_path := VectorFile sample_gdf;
             "/data/utm.shp" := VectorFile utm_gdf;
             "/data/zone_2nd.shp" := VectorFile sample_gdf ]}
          ∅
          (fun _ => true)
          (fun _ _ => Some (TileImage 1))
          sample_transform
          [].


End Sample.

(** ** Vocabulary of the further properties *)

Module Terms.
Import PyStr OsPath Num Geo Plot Sys Script Spec.
Open Scope Q_scope.

(** The point lies in the box. *)
Definition inside (b : Bounds) (pt : Point) : Prop :=
  let '(minx, miny, maxx, maxy) := b in
  minx <= fst pt /\ fst pt <= maxx /\ miny <= snd pt /\ snd pt <= maxy.

(** The box [b'] covers the box [b]. *)
Definition covers (b' b : Bounds) : Prop :=
  let '(minx, miny, maxx, maxy) := b in
  let '(minx', miny', maxx', maxy') := b' in
  minx' <= minx /\ miny' <= miny /\ maxx <= maxx' /\ maxy <= maxy'.

(** The point lies in the view of the figure. *)
Definition in_view (fig : Axes) (pt : Point) : Prop :=
  fst (ax_xlim fig) <= fst pt /\ fst pt <= snd (ax_xlim fig)
  /\ fst (ax_ylim fig) <= snd pt /\ snd pt <= snd (ax_ylim fig).

(** From [w] to [w1] no line was read, no directory removed, the services
    are the same, and the trace was only extended. *)
Definition quiet (w w1 : World) : Prop :=
  stdin w1 = stdin w
  /\ dirs w ⊆ dirs w1
  /\ writable w1 = writable w
  /\ tiles w1 = tiles w
  /\ transform w1 = transform w
  /\ exists es, events w1 = (events w ++ es)%list.

(** [m] is quiet however it ends. *)
Definition steady {A : Type} (m : M A) : Prop :=
  forall w, quiet w (snd (m w)).

(** [makedirs dir] would not fail in [w]. *)
Definition creatable (w : World) (dir : string) : bool :=
  bool_decide (dir ∈ dirs w)
  || (negb (bool_decide (is_Some (files w !! dir))) && writable w dir).


Definition not_underscore (c : ascii) : bool := negb (Ascii.eqb c underscore).

(** [s] is not empty. *)
Definition nonempty (s : string) : bool := negb (is_empty s).

End Terms.

(** ** Further worlds *)

Module Worlds.
Import PyStr OsPath Num Geo Plot Sys Script Spec Sample.
Open Scope Q_scope.

(** A file that exists and holds no vector data. *)
Definition broken_world : World :=
  mkWorld ["/data/notes.txt"] {[ "/data/notes.txt" := OtherFile ]} ∅
          (fun _ => true) (fun _ _ => Some (TileImage 1)) sample_transform [].

(** A layer without any feature. *)
Definition empty_gdf : GeoDataFrame := mkGdf (Some epsg_4326) [].

Definition empty_world : World :=
  mkWorld ["/data/empty.shp"] {[ "/data/empty.shp" := VectorFile empty_gdf ]} ∅
          (fun _ => true) (fun _ _ => Some (TileImage 1)) sample_transform [].

(** Nothing may be created. *)
Definition readonly_world : World :=
  mkWorld [sample_path] {[ sample_path := VectorFile sample_gdf ]} ∅
          (fun _ => false) (fun _ _ => Some (TileImage 1)) sample_transform [].

(** Standard input is at its end. *)
Definition eof_world : World :=
  mkWorld [] {[ sample_path := VectorFile sample_gdf ]} ∅
          (fun _ => true) (fun _ _ => Some (TileImage 1)) sample_transform [].

(** The path typed with blanks inside the quotes. *)
Definition spaced_line : string :=
  String dquote EmptyString +:+ " /data/study_area.shp "
    +:+ String dquote EmptyString.

(** The same path typed with blanks inside the quotes, where the file is. *)
Definition spaced_world : World :=
  mkWorld [spaced_line] {[ sample_path := VectorFile sample_gdf ]} ∅
          (fun _ => true) (fun _ _ => Some (TileImage 1)) sample_transform [].

(** The tile service cannot be reached. *)
Definition offline_world : World :=
  mkWorld [sample_path] {[ sample_path := VectorFile sample_gdf ]} ∅
          (fun _ => true) (fun _ _ => None) sample_transform [].

(** Directories may be made, the image may not be written. *)
Definition no_image_world : World :=
  mkWorld [sample_path] {[ sample_path := VectorFile sample_gdf ]} ∅
          (fun path => negb (String.eqb path (output_path sample_path "out")))
          (fun _ _ => Some (TileImage 1)) sample_transform [].



End Worlds.

(** * Properties *)

(** ** The model on small inputs *)

Module Examples.
Import PyStr OsPath Num Geo Plot Sys Script Spec Sample.

Example basename_ex : basename "/data/study_area.shp" = "study_area.shp".
Proof. reflexivity. Qed.

Example basename_dir : basename "/data/maps/" = "".
Proof. reflexivity. Qed.

Example splitext_ex : splitext "study_area.shp" = ("study_area", ".shp").
Proof. reflexivity. Qed.

Example splitext_hidden : splitext ".bashrc" = (".bashrc", "").
Proof. reflexivity. Qed.

Example splitext_two : splitext "a.tar.gz" = ("a.tar", ".gz").
Proof. reflexivity. Qed.

Example join_ex : join "out" "a_basemap.png" = "out/a_basemap.png".
Proof. reflexivity. Qed.

Example join_slash : join "out/" "a_basemap.png" = "out/a_basemap.png".
Proof. reflexivity. Qed.

Example title_ex : title "study area" = "Study Area".
Proof. reflexivity. Qed.

Example title_mixed : title "myFile v2" = "Myfile V2".
Proof. reflexivity. Qed.

Example strip_ex : strip "  'a b'  " = "'a b'".
Proof. reflexivity. Qed.

Example clean_path_ex : clean_path sample_line = "/data/study_area.shp".
Proof. reflexivity. Qed.

Example format_2f_ex :
  (format_2f 1234.5678, format_2f (-0.125), format_2f 7) = ("1234.57", "-0.12", "7.00").
Proof. reflexivity. Qed.

Example linspace_ex : map Qred (linspace 0 10 6) = [0; 2; 4; 6; 8; 10]%Q.
Proof. reflexivity. Qed.

Example output_path_ex :
  output_path "/data/study_area.shp" "out" = "out/study_area_basemap.png".
Proof. reflexivity. Qed.

Example main_sample_ok : fst (main sample_world) = Ok tt.
Proof. vm_compute. reflexivity. Qed.

Example main_sample_events :
  events (snd (main sample_world))
  = [EPrint "Please enter the path to your shapefile/GeoJSON file:";
     EInput;
     EExists "/data/study_area.shp";
     EMakedirs output_dir;
     EPrint ("Processing shapefile: " +:+ "/data/study_area.shp");
     EPrint ("Output will be saved to: " +:+ output_dir);
     EReadFile "/data/study_area.shp";
     EFetchTiles (6000.0, 34000.0)%Q (12000.0, 68000.0)%Q;
     EMakedirs output_dir;
     ESaveFig (output_path "/data/study_area.shp" output_dir);
     EPrint ("Base map saved to: " +:+ output_path "/data/study_area.shp" output_dir);
     EShow].
Proof. vm_compute. reflexivity. Qed.

End Examples.

(** ** Strings and paths *)

Module StrFacts.
Import PyStr OsPath.

Lemma app_cons (c : ascii) (s t : string) :
  String c s +:+ t = String c (s +:+ t).
Proof. reflexivity. Qed.

Lemma app_empty_l (s : string) : EmptyString +:+ s = s.
Proof. reflexivity. Qed.

Lemma app_empty_r (s : string) : s +:+ EmptyString = s.
Proof. induction s as [|c s IH]; [reflexivity|]. by rewrite app_cons, IH. Qed.

Lemma app_assoc (s t u : string) : (s +:+ t) +:+ u = s +:+ t +:+ u.
Proof. induction s as [|c s IH]; [reflexivity|]. by rewrite !app_cons, IH. Qed.

Lemma take_drop (n : nat) (s : string) : take n s +:+ drop n s = s.
Proof.
  revert s. induction n as [|n IH]; intros [|c s]; try reflexivity.
  cbn [take drop]. by rewrite app_cons, IH.
Qed.

Lemma rfind_lower (c : ascii) (s : string) : -1 <= rfind c s.
Proof.
  induction s as [|a s IH]; cbn [rfind]; [lia|].
  destruct (Z.leb_spec 0 (rfind c s)); [lia|].
  destruct (Ascii.eqb a c); lia.
Qed.

(** The suffix that starts one past the last [c] holds no [c]. *)
Lemma rfind_drop_after (c : ascii) (s : string) :
  rfind c (drop (Z.to_nat (rfind c s + 1)) s) = -1.
Proof.
  induction s as [|a s IH]; [reflexivity|].
  cbn [rfind]. pose proof (rfind_lower c s) as Hlow.
  destruct (Z.leb_spec 0 (rfind c s)) as [Hge|Hlt].
  - replace (Z.to_nat (rfind c s + 1 + 1)) with (S (Z.to_nat (rfind c s + 1))) by lia.
    exact IH.
  - assert (rfind c s = -1) as Hr by lia.
    destruct (Ascii.eqb a c) eqn:Hac.
    + change (Z.to_nat (0 + 1)) with 1%nat. cbn [drop]. exact Hr.
    + change (Z.to_nat (-1 + 1)) with 0%nat. cbn [drop rfind].
      rewrite Hr, Hac. reflexivity.
Qed.

(** The prefix up to and with the last [c] is empty or ends in [c]. *)
Lemma rfind_take_upto (c : ascii) (s : string) :
  let prefix := take (Z.to_nat (rfind c s + 1)) s in
  prefix = EmptyString \/ endswith c prefix = true.
Proof.
  induction s as [|a s IH]; [by left|].
  cbn [rfind]. pose proof (rfind_lower c s) as Hlow.
  destruct (Z.leb_spec 0 (rfind c s)) as [Hge|Hlt].
  - right.
    replace (Z.to_nat (rfind c s + 1 + 1)) with (S (Z.to_nat (rfind c s + 1))) by lia.
    cbn [take]. cbn zeta in IH. destruct IH as [IH|IH].
    + exfalso. destruct s as [|b s]; [cbn in Hge; lia|].
      replace (Z.to_nat (rfind c (String b s) + 1))
        with (S (Z.to_nat (rfind c (String b s)))) in IH by lia.
      discriminate IH.
    + destruct (take (Z.to_nat (rfind c s + 1)) s) eqn:Ht; [discriminate IH|].
      exact IH.
  - destruct (Ascii.eqb a c) eqn:Hac.
    + right. change (Z.to_nat (0 + 1)) with 1%nat. cbn. exact Hac.
    + left. reflexivity.
Qed.

(** At the index [rfind] answers stands [c], and none follows it. *)
Lemma rfind_drop_at (c : ascii) (s : string) :
  0 <= rfind c s ->
  exists t, drop (Z.to_nat (rfind c s)) s = String c t /\ rfind c t = -1.
Proof.
  induction s as [|a s IH]; cbn [rfind]; [lia|].
  pose proof (rfind_lower c s) as Hlow.
  destruct (Z.leb_spec 0 (rfind c s)) as [Hge|Hlt]; intros H.
  - destruct (IH Hge) as (t & Ht & Hn). exists t. split; [|exact Hn].
    replace (Z.to_nat (rfind c s + 1)) with (S (Z.to_nat (rfind c s))) by lia.
    exact Ht.
  - destruct (Ascii.eqb_spec a c) as [->|Hne]; [|lia].
    exists s. split; [reflexivity|lia].
Qed.

Lemma rfind_app_none (c : ascii) (a b : string) :
  rfind c (a +:+ b) = -1 -> rfind c a = -1.
Proof.
  induction a as [|x a IH]; [done|]. rewrite app_cons. cbn [rfind].
  pose proof (rfind_lower c (a +:+ b)) as Hlow.
  destruct (Z.leb_spec 0 (rfind c (a +:+ b))) as [Hge|Hlt]; [lia|].
  rewrite IH by lia. cbn. by destruct (Ascii.eqb x c).
Qed.

Lemma rfind_none_head (c : ascii) (s : string) :
  rfind c s = -1 -> startswith c s = false.
Proof.
  destruct s as [|x s]; [done|]. cbn [rfind startswith].
  pose proof (rfind_lower c s) as Hlow.
  destruct (Z.leb_spec 0 (rfind c s)); [lia|].
  destruct (Ascii.eqb x c); [lia|done].
Qed.

(** [basename] cuts the path after its last slash. *)
Lemma basename_split (p : string) :
  exists dir_part,
    p = dir_part +:+ basename p
    /\ (dir_part = EmptyString \/ endswith slash dir_part = true)
    /\ rfind slash (basename p) = -1.
Proof.
  exists (take (Z.to_nat (rfind slash p + 1)) p). unfold basename. split; [|split].
  - symmetry. apply take_drop.
  - apply rfind_take_upto.
  - apply rfind_drop_after.
Qed.

(** [splitext] cuts a name into a root and an extension that is empty or
    starts at the last dot. *)
Lemma splitext_split (p : string) :
  p = fst (splitext p) +:+ snd (splitext p)
  /\ (snd (splitext p) = EmptyString
      \/ exists e, snd (splitext p) = String dot e /\ rfind dot e = -1).
Proof.
  unfold splitext.
  destruct (rfind slash p <? rfind dot p) eqn:Hlt; cbn [andb].
  - destruct (has_non_dot _ _ _).
    + cbn [fst snd]. split; [symmetry; apply take_drop|]. right.
      apply Z.ltb_lt in Hlt. pose proof (rfind_lower slash p).
      apply rfind_drop_at. lia.
    + cbn [fst snd]. split; [by rewrite app_empty_r|by left].
  - cbn [fst snd]. split; [by rewrite app_empty_r|by left].
Qed.

End StrFacts.

(** ** Stripping *)

Module StripFacts.
Import PyStr Spec StrFacts.

Section OneSet.
Variable P : ascii -> bool.

Lemma lstrip_app_all (w s : string) :
  all_chars P w = true -> lstrip P (w +:+ s) = lstrip P s.
Proof.
  induction w as [|c w IH]; [done|]. cbn [all_chars]. intros [Hc Hw]%andb_prop.
  rewrite app_cons. cbn [lstrip]. rewrite Hc. auto.
Qed.

Lemma lstrip_id (s : string) : head_not P s -> lstrip P s = s.
Proof.
  destruct s as [|c s]; [done|]. intros H. cbn [lstrip].
  by rewrite (H c eq_refl).
Qed.

Lemma rstrip_all (w : string) : all_chars P w = true -> rstrip P w = EmptyString.
Proof.
  induction w as [|c w IH]; [done|]. cbn [all_chars]. intros [Hc Hw]%andb_prop.
  cbn [rstrip]. rewrite (IH Hw), Hc. reflexivity.
Qed.

Lemma rstrip_app_all (s w : string) :
  all_chars P w = true -> rstrip P (s +:+ w) = rstrip P s.
Proof.
  intros Hw. induction s as [|c s IH]; [by apply rstrip_all|].
  rewrite app_cons. cbn [rstrip]. by rewrite IH.
Qed.

Lemma rstrip_id (s : string) : last_not P s -> rstrip P s = s.
Proof.
  induction s as [|c s IH]; [done|]. intros H. cbn [rstrip].
  destruct s as [|d s].
  - cbn. by rewrite (H c eq_refl).
  - rewrite IH; [done|]. intros z Hz. apply H. exact Hz.
Qed.

Lemma strip_with_sandwich (wl m wr : string) :
  all_chars P wl = true -> all_chars P wr = true ->
  head_not P m -> last_not P m ->
  strip_with P (wl +:+ m +:+ wr) = m.
Proof.
  intros Hl Hr Hh Ht. unfold strip_with. rewrite (lstrip_app_all _ _ Hl).
  destruct m as [|c m].
  - rewrite app_empty_l. fold (strip_with P wr).
    unfold strip_with. clear Hh Ht.
    induction wr as [|d wr IH]; [done|].
    cbn [all_chars] in Hr. apply andb_prop in Hr as [Hd Hr'].
    cbn [lstrip]. rewrite Hd. auto.
  - rewrite lstrip_id.
    + rewrite (rstrip_app_all _ _ Hr). by apply rstrip_id.
    + intros z Hz. apply Hh. exact Hz.
Qed.

Lemma last_char_cons (c : ascii) (s : string) :
  exists z, last_char (String c s) = Some z.
Proof.
  revert c. induction s as [|d s IH]; intros c; [by exists c|].
  destruct (IH d) as [z Hz]. exists z. exact Hz.
Qed.

Lemma last_char_app (a b : string) :
  last_char (a +:+ b) =
  match last_char b with Some z => Some z | None => last_char a end.
Proof.
  induction a as [|c a IH].
  - rewrite app_empty_l. by destruct (last_char b).
  - rewrite app_cons. destruct a as [|d a].
    + rewrite app_empty_l. destruct b as [|e b]; [done|].
      change (last_char (String c (String e b))) with (last_char (String e b)).
      destruct (last_char_cons e b) as [z Hz]. by rewrite Hz.
    + rewrite app_cons in IH |- *.
      change (last_char (String c (String d (a +:+ b))))
        with (last_char (String d (a +:+ b))).
      rewrite IH. reflexivity.
Qed.



Lemma no_edge_head (s : string) : no_edge P s = true -> head_not P s.
Proof.
  unfold no_edge. intros H c Hc. rewrite Hc in H.
  destruct (last_char s) as [z|] eqn:Hz.
  - apply andb_prop in H as [H _]. by apply negb_true_iff.
  - destruct s as [|a s]; [done|].
    destruct (last_char_cons a s) as [y Hy]. congruence.
Qed.

Lemma no_edge_last (s : string) : no_edge P s = true -> last_not P s.
Proof.
  unfold no_edge. intros H z Hz. rewrite Hz in H.
  destruct (first_char s) as [a|] eqn:Ha.
  - apply andb_prop in H as [_ H]. by apply negb_true_iff.
  - by destruct s.
Qed.

(** A run of characters outside [P] has no [P] at its ends. *)
Lemma all_chars_edges (Q : ascii -> bool) (s : string) :
  (forall c, Q c = true -> P c = false) ->
  all_chars Q s = true -> head_not P s /\ last_not P s.
Proof.
  intros HQ. induction s as [|c s IH]; [done|].
  cbn [all_chars]. intros [Hc Hs]%andb_prop. split.
  - intros z [= <-]. by apply HQ.
  - destruct s as [|d s]; [intros z [= <-]; by apply HQ|].
    intros z Hz. by apply (proj2 (IH Hs)).
Qed.
End OneSet.

Lemma quote_not_space (c : ascii) : isquote c = true -> isspace c = false.
Proof.
  unfold isquote. cbn [mem]. rewrite orb_false_r.
  intros [H|H]%orb_prop; apply Ascii.eqb_eq in H; by subst c.
Qed.


End StripFacts.

(** ** Title case *)

Module TitleFacts.
Import PyStr Spec StrFacts.







Lemma cased_not_space (c : ascii) : iscased c = true -> Ascii.eqb c space = false.
Proof.
  intros H. destruct (Ascii.eqb_spec c space) as [->|]; [|done].
  discriminate H.
Qed.



End TitleFacts.

(** ** Runs *)

Module RunFacts.
Import PyStr OsPath Num Geo Plot Sys Script Spec.

Lemma bind_ok {A B : Type} (m : M A) (f : A -> M B) (w w' : World) (b : B) :
  (m ≫= f) w = (Ok b, w') ->
  exists a w1, m w = (Ok a, w1) /\ f a w1 = (Ok b, w').
Proof.
  unfold mbind, M_bind. destruct (m w) as [[a|e|n] w1]; intros H; try discriminate H.
  by exists a, w1.
Qed.

Lemma bind_run {A B : Type} (m : M A) (f : A -> M B) (w w1 : World) (a : A) :
  m w = (Ok a, w1) -> (m ≫= f) w = f a w1.
Proof. intros H. unfold mbind, M_bind. by rewrite H. Qed.

Lemma bind_raise {A B : Type} (m : M A) (f : A -> M B) (w w1 : World) (e : Exn) :
  m w = (Raise e, w1) -> (m ≫= f) w = (Raise e, w1).
Proof. intros H. unfold mbind, M_bind. by rewrite H. Qed.

Lemma read_file_ok (p : string) (w w1 : World) (gdf : GeoDataFrame) :
  read_file p w = (Ok gdf, w1) ->
  files w !! p = Some (VectorFile gdf) /\ w1 = log (EReadFile p) w.
Proof.
  unfold read_file. destruct (files w !! p) as [[g|fig|]|]; intros H; try discriminate H.
  by injection H as -> <-.
Qed.

(** Assigning and reprojecting, as one step of the pipeline. *)
Lemma set_crs_to_crs (gdf : GeoDataFrame) (w : World) :
  (set_crs epsg_4326 gdf ≫= to_crs epsg_3857) w =
  if assignable gdf then (Ok (reprojected w gdf), w)
  else (Raise (ValueError crs_mismatch), w).
Proof.
  unfold set_crs, assignable. destruct (gdf_crs gdf) as [c|] eqn:Hc.
  - destruct (Z.eqb_spec c epsg_4326) as [->|Hne]; [|reflexivity].
    unfold mbind, M_bind, mret, M_ret, to_crs. rewrite Hc. reflexivity.
  - reflexivity.
Qed.

Lemma bounds_for_limits_ok (gdf : GeoDataFrame) (w w1 : World) (b : Bounds) :
  bounds_for_limits gdf w = (Ok b, w1) -> total_bounds gdf = Some b /\ w1 = w.
Proof.
  unfold bounds_for_limits. destruct (total_bounds gdf) as [b'|]; intros H;
    [|discriminate H].
  by injection H as -> <-.
Qed.

Lemma add_basemap_ok (ax ax1 : Axes) (w w1 : World) :
  add_basemap ax w = (Ok ax1, w1) ->
  exists img,
    tiles w (ax_xlim ax) (ax_ylim ax) = Some img
    /\ ax1 = with_basemap img attribution ax
    /\ w1 = log (EFetchTiles (ax_xlim ax) (ax_ylim ax)) w.
Proof.
  unfold add_basemap. destruct (tiles w _ _) as [i|]; intros H; [|discriminate H].
  injection H as <- <-. by exists i.
Qed.

Lemma makedirs_ok (d : string) (w w1 : World) :
  makedirs d w = (Ok tt, w1) ->
  stdin w1 = stdin w /\ files w1 = files w /\ writable w1 = writable w
  /\ tiles w1 = tiles w /\ transform w1 = transform w
  /\ events w1 = events w ++ [EMakedirs d] /\ d ∈ dirs w1.
Proof.
  unfold makedirs. case_bool_decide as Hd.
  - intros [= <-]. by repeat split.
  - case_bool_decide as Hf; [intros H; discriminate H|].
    destruct (writable w d); intros [= <-]; repeat split. cbn. set_solver.
Qed.

Lemma savefig_ok (p : string) (fig : Axes) (w w1 : World) :
  savefig p fig w = (Ok tt, w1) ->
  w1 = mkWorld (stdin w) (<[p := PngFile fig]> (files w)) (dirs w) (writable w)
               (tiles w) (transform w) (events w ++ [ESaveFig p]).
Proof. unfold savefig. destruct (writable w p); by intros [= <-]. Qed.

End RunFacts.

(** ** The pipeline *)

Module Pipeline.
Import PyStr OsPath Num Geo Plot Sys Script Spec RunFacts.

Lemma bind_assoc {A B C : Type} (m : M A) (f : A -> M B) (g : B -> M C) (w : World) :
  (m ≫= (fun a => f a ≫= g)) w = ((m ≫= f) ≫= g) w.
Proof.
  unfold mbind, M_bind. destruct (m w) as [[a|e|n] w1]; reflexivity.
Qed.

(** What a run that ends normally has met and done. *)
Lemma create_base_map_completes (p d : string) (w : World) :
  completes (create_base_map p d) w ->
  exists gdf b img,
    files w !! p = Some (VectorFile gdf)
    /\ assignable gdf = true
    /\ total_bounds (reprojected w gdf) = Some b
    /\ tiles w (view_xlim b) (view_ylim b) = Some img
    /\ files (after (create_base_map p d) w)
       = <[output_path p d :=
             PngFile (figure p (reprojected w gdf) b img
                             (transform w epsg_3857 epsg_4326))]> (files w)
    /\ events (after (create_base_map p d) w)
       = events w ++ [EReadFile p;
                      EFetchTiles (view_xlim b) (view_ylim b);
                      EMakedirs d;
                      ESaveFig (output_path p d);
                      EPrint ("Base map saved to: " +:+ output_path p d);
                      EShow].
Proof.
  unfold completes, after.
  destruct (create_base_map p d w) as [o w'] eqn:Hrun. cbn [fst snd]. intros ->.
  unfold create_base_map in Hrun.
  apply bind_ok in Hrun as (gdf & w1 & Hread & Hrun).
  apply read_file_ok in Hread as [Hfile ->].
  rewrite (bind_assoc (set_crs epsg_4326 gdf) (to_crs epsg_3857)) in Hrun.
  apply bind_ok in Hrun as (gdf_wm & w2 & Hcrs & Hrun).
  rewrite set_crs_to_crs in Hcrs.
  destruct (assignable gdf) eqn:Hassign; [|discriminate Hcrs].
  injection Hcrs as <- <-.
  cbv zeta in Hrun.
  apply bind_ok in Hrun as (b & w3 & Hb & Hrun).
  apply bounds_for_limits_ok in Hb as [Hb ->].
  apply bind_ok in Hrun as (ax1 & w4 & Himg & Hrun).
  apply add_basemap_ok in Himg as (img & Himg & -> & ->).
  apply bind_ok in Hrun as (tr & w5 & Htr & Hrun).
  injection Htr as <- <-.
  apply bind_ok in Hrun as ([] & w6 & Hmk & Hrun).
  apply makedirs_ok in Hmk as (Hin & Hfs & Hwr & Hti & Htf & Hev & Hd).
  apply bind_ok in Hrun as ([] & w7 & Hsave & Hrun).
  apply savefig_ok in Hsave as ->.
  cbv [mbind M_bind print show] in Hrun. injection Hrun as <-.
  exists gdf, b, img. repeat split; try done.
  - cbn [files log]. by rewrite Hfs.
  - cbn [events log]. rewrite Hev. cbn [events log].
    by rewrite <- !List.app_assoc.
Qed.

Lemma frame_bind {A B : Type} (m : M A) (f : A -> M B) :
  frame m -> (forall a, frame (f a)) -> frame (m ≫= f).
Proof.
  intros Hm Hf w. unfold mbind, M_bind. specialize (Hm w).
  destruct (m w) as [[a|e|n] w1]; cbn [snd] in *; try done.
  by rewrite Hf.
Qed.

Lemma saves_or_keeps_bind {A : Type} (path : string) (m : M A) (f : A -> M unit) :
  frame m -> (forall a, saves_or_keeps path (f a)) -> saves_or_keeps path (m ≫= f).
Proof.
  intros Hm Hf w. unfold mbind, M_bind. specialize (Hm w).
  destruct (m w) as [[a|e|n] w1]; cbn [fst snd] in *; try done.
  specialize (Hf a w1). by rewrite Hm in Hf.
Qed.

Lemma saves_or_keeps_savefig (path : string) (fig : Axes) (k : M unit) :
  frame k -> (forall w, fst (k w) = Ok tt) ->
  saves_or_keeps path (savefig path fig ≫= fun _ => k).
Proof.
  intros Hk Hok w. unfold mbind, M_bind, savefig.
  destruct (writable w path); cbn [fst snd]; [|done].
  rewrite (surjective_pairing (k _)), Hok. cbn [fst snd].
  exists fig. by rewrite Hk.
Qed.

Lemma frame_read_file (p : string) : frame (read_file p).
Proof. intros w. unfold read_file. by repeat case_match. Qed.

Lemma frame_set_crs (epsg : CRS) (gdf : GeoDataFrame) : frame (set_crs epsg gdf).
Proof. intros w. unfold set_crs. by repeat case_match. Qed.

Lemma frame_to_crs (epsg : CRS) (gdf : GeoDataFrame) : frame (to_crs epsg gdf).
Proof. intros w. unfold to_crs. by repeat case_match. Qed.

Lemma frame_bounds_for_limits (gdf : GeoDataFrame) : frame (bounds_for_limits gdf).
Proof. intros w. unfold bounds_for_limits. by case_match. Qed.

Lemma frame_add_basemap (ax : Axes) : frame (add_basemap ax).
Proof. intros w. unfold add_basemap. by case_match. Qed.

Lemma frame_transformer (src dst : CRS) : frame (Transformer_from_crs src dst).
Proof. by intros w. Qed.

Lemma frame_makedirs (dir : string) : frame (makedirs dir).
Proof. intros w. unfold makedirs. by repeat case_match. Qed.

Lemma frame_print (line : string) : frame (print line).
Proof. by intros w. Qed.

Lemma frame_show : frame show.
Proof. by intros w. Qed.

Create HintDb frames.

#[local] Hint Resolve frame_read_file frame_set_crs frame_to_crs
  frame_bounds_for_limits frame_add_basemap frame_transformer frame_makedirs
  frame_print frame_show : frames.

Lemma create_base_map_saves_or_keeps (p d : string) :
  saves_or_keeps (output_path p d) (create_base_map p d).
Proof.
  unfold create_base_map.
  repeat (apply saves_or_keeps_bind; [solve [auto with frames]|intros ?; cbv zeta]).
  apply saves_or_keeps_savefig; [|done].
  apply frame_bind; auto with frames.
Qed.

End Pipeline.

(** ** The finished figure, field by field *)

Module FigureFacts.
Import PyStr OsPath Num Geo Plot Sys Script Spec.
Open Scope Q_scope.

Section Fields.
Variables (p : string) (gdf_wm : GeoDataFrame) (b : Bounds) (img : Image)
          (tr : Point -> Point).

Lemma figure_xlim : ax_xlim (figure p gdf_wm b img tr) = view_xlim b.
Proof. reflexivity. Qed.

Lemma figure_ylim : ax_ylim (figure p gdf_wm b img tr) = view_ylim b.
Proof. reflexivity. Qed.

Lemma figure_xticks : ax_xticks (figure p gdf_wm b img tr) = x_ticks b.
Proof. reflexivity. Qed.

Lemma figure_yticks : ax_yticks (figure p gdf_wm b img tr) = y_ticks b.
Proof. reflexivity. Qed.

Lemma figure_xticklabels :
  ax_xticklabels (figure p gdf_wm b img tr)
  = map (fun lon => format_2f lon +:+ "°E") (x_tick_lons b tr).
Proof. reflexivity. Qed.

Lemma figure_yticklabels :
  ax_yticklabels (figure p gdf_wm b img tr)
  = map (fun lat => format_2f lat +:+ "°N") (y_tick_lats b tr).
Proof. reflexivity. Qed.

Lemma figure_lines :
  ax_lines (figure p gdf_wm b img tr)
  = [mkLine [scalebar_x_start b; scalebar_x_start b + scalebar_length]
            [scalebar_y b; scalebar_y b] 6;
     mkLine [scalebar_x_start b; scalebar_x_start b]
            [scalebar_y b - 300; scalebar_y b + 300] 2;
     mkLine [scalebar_x_start b + scalebar_length;
             scalebar_x_start b + scalebar_length]
            [scalebar_y b - 300; scalebar_y b + 300] 2].
Proof. reflexivity. Qed.

Lemma figure_texts :
  ax_texts (figure p gdf_wm b img tr)
  = [mkText 0.005 0.005 attribution HLeft VBaseline TransAxes;
     mkText (scalebar_x_start b + scalebar_length / 2) (scalebar_y b + 500)
            "15 KM" HCenter VBottom TransData].
Proof. reflexivity. Qed.

Lemma figure_title : ax_title (figure p gdf_wm b img tr) = map_title p.
Proof. reflexivity. Qed.

Lemma figure_basemap : ax_basemap (figure p gdf_wm b img tr) = Some img.
Proof. reflexivity. Qed.

Lemma figure_polygons :
  ax_polygons (figure p gdf_wm b img tr) = gdf_geometry gdf_wm.
Proof. reflexivity. Qed.
End Fields.

Lemma padded_xlim_eq (west south east north : Q) :
  padded_xlim (west, south, east, north)
  = (west - (east - west) * 0.2, east + (east - west) * 0.2).
Proof. reflexivity. Qed.

Lemma padded_ylim_eq (west south east north : Q) :
  padded_ylim (west, south, east, north)
  = (south - (north - south) * 0.2, north + (north - south) * 0.2).
Proof. reflexivity. Qed.

End FigureFacts.


(** ** The limits the axes take *)

Module LimFacts.
Import Num Geo Plot Script Spec.
Open Scope Q_scope.

Lemma Qltb_false (a b : Q) : Qltb a b = false <-> b <= a.
Proof. unfold Qltb. rewrite negb_false_iff. apply Qle_bool_iff. Qed.

Lemma Qltb_true (a b : Q) : Qltb a b = true <-> a < b.
Proof.
  unfold Qltb. rewrite negb_true_iff. split.
  - intros H. apply Qnot_le_lt. intros Hle. apply Qle_bool_iff in Hle. congruence.
  - intros H. destruct (Qle_bool b a) eqn:Hb; [|done].
    apply Qle_bool_iff in Hb. exfalso. by apply (Qlt_not_le _ _ H).
Qed.

Lemma maxabs_nonneg (lo hi : Q) : 0 <= Qmax (Qabs lo) (Qabs hi).
Proof. eapply Qle_trans; [apply (Qabs_nonneg lo)|apply Q.le_max_l]. Qed.

Lemma threshold_small : (1000000 / 1e-15) * Ax.float_tiny <= 0.05.
Proof. vm_compute. discriminate. Qed.

(** A substantial interval is taken as it is. *)
Lemma set_lim_substantial (lo hi : Q) :
  substantial lo hi = true -> Ax.set_lim lo hi = (lo, hi).
Proof.
  unfold substantial. intros [Hthr Hlen]%andb_prop.
  pose proof (maxabs_nonneg lo hi) as Hm.
  pose proof Hlen as Hlt. apply Qltb_true in Hlt.
  assert (0 <= Qmax (Qabs lo) (Qabs hi) * 1e-15) as Hp
    by (apply Qmult_le_0_compat; [exact Hm|by vm_compute]).
  assert (Qltb hi lo = false) as Hrev.
  { apply Qltb_false. set (t := Qmax (Qabs lo) (Qabs hi) * 1e-15) in *. lra. }
  unfold Ax.set_lim, Ax.nonsingular. rewrite Hrev.
  unfold Qltb in *. rewrite Hthr. cbn [negb].
  apply negb_true_iff in Hlen. rewrite Hlen. reflexivity.
Qed.

(** Whatever the axes make of an interval, it lies within the result. *)
Lemma set_lim_covers (lo hi : Q) :
  lo <= hi ->
  fst (Ax.set_lim lo hi) <= lo /\ hi <= snd (Ax.set_lim lo hi)
  /\ fst (Ax.set_lim lo hi) <= snd (Ax.set_lim lo hi).
Proof.
  intros Hle. assert (Qltb hi lo = false) as Hrev by (by apply Qltb_false).
  unfold Ax.set_lim, Ax.nonsingular. rewrite Hrev.
  pose proof (Qabs_nonneg lo) as Hal. pose proof (Qabs_nonneg hi) as Hah.
  destruct (Qltb (Qmax _ _) _) eqn:Hthr.
  - apply Qltb_true in Hthr. pose proof threshold_small as Hs.
    pose proof (Q.le_max_l (Qabs lo) (Qabs hi)) as H1.
    pose proof (Q.le_max_r (Qabs lo) (Qabs hi)) as H2.
    assert (Qabs lo <= 0.05) as Hl%Qabs_Qle_condition by lra.
    assert (Qabs hi <= 0.05) as Hh%Qabs_Qle_condition by lra.
    cbn [fst snd]. repeat split; lra.
  - destruct (Qle_bool _ _); [|cbn [fst snd]; repeat split; lra].
    destruct (Qeq_bool hi 0 && Qeq_bool lo 0) eqn:Hz.
    + apply andb_prop in Hz as [Hh%Qeq_bool_eq Hl%Qeq_bool_eq].
      cbn [fst snd]. repeat split; lra.
    + cbn [fst snd]. repeat split; lra.
Qed.

Lemma view_xlim_eq (b : Bounds) :
  view_xlim b = Ax.set_lim (fst (padded_xlim b)) (snd (padded_xlim b)).
Proof. reflexivity. Qed.

Lemma view_ylim_eq (b : Bounds) :
  view_ylim b = Ax.set_lim (fst (padded_ylim b)) (snd (padded_ylim b)).
Proof. reflexivity. Qed.


Lemma view_ylim_substantial (b : Bounds) :
  substantial (fst (padded_ylim b)) (snd (padded_ylim b)) = true ->
  view_ylim b = padded_ylim b.
Proof. intros H. rewrite view_ylim_eq, (set_lim_substantial _ _ H). by destruct (padded_ylim b). Qed.

End LimFacts.

(** ** Ticks *)

Module TickFacts.
Import PyStr OsPath Num Geo Plot Sys Script Spec.
Open Scope Q_scope.

Lemma linspace_6 (a b : Q) :
  linspace a b 6 =
  [linspace_sample a b 5 0; linspace_sample a b 5 1; linspace_sample a b 5 2;
   linspace_sample a b 5 3; linspace_sample a b 5 4; b].
Proof. reflexivity. Qed.

(** Both branches of [linspace] compute the same sample. *)
Lemma linspace_sample_5 (a b : Q) (i : nat) :
  linspace_sample a b 5 i == a + inject_Z (Z.of_nat i) * ((b - a) / 5).
Proof. unfold linspace_sample. destruct (Qeq_bool _ _); field. Qed.

Lemma linspace_6_nth (a b : Q) (i : nat) :
  (i < 6)%nat ->
  nth i (linspace a b 6) 0 == a + inject_Z (Z.of_nat i) * ((b - a) / 5).
Proof.
  intros Hi. rewrite linspace_6.
  destruct i as [|[|[|[|[|[|i]]]]]]; cbn [nth]; try apply linspace_sample_5.
  - cbn. field.
  - lia.
Qed.

(** The labels come from the ticks; the ticks are not changed. *)
Lemma labels_of_ticks_x (f : Q -> string) (tr : Point -> Point) (y : Q) (xs : list Q) :
  map f (fst (transform_seq tr xs (repeat y (length xs))))
  = map (fun x => f (fst (tr (x, y)))) xs.
Proof.
  unfold transform_seq. cbn [fst]. rewrite !map_map.
  induction xs as [|x xs IH]; [done|]. cbn. by rewrite IH.
Qed.

Lemma labels_of_ticks_y (f : Q -> string) (tr : Point -> Point) (x : Q) (ys : list Q) :
  map f (snd (transform_seq tr (repeat x (length ys)) ys))
  = map (fun y => f (snd (tr (x, y)))) ys.
Proof.
  unfold transform_seq. cbn [snd]. rewrite !map_map.
  induction ys as [|y ys IH]; [done|]. cbn. by rewrite IH.
Qed.

End TickFacts.

(** ** The entry point *)

Module MainFacts.
Import PyStr OsPath Num Geo Plot Sys Script Spec RunFacts Pipeline.

Lemma no_exit_bind {A B : Type} (m : M A) (f : A -> M B) :
  no_exit m -> (forall a, no_exit (f a)) -> no_exit (m ≫= f).
Proof.
  intros Hm Hf w n. unfold mbind, M_bind. specialize (Hm w).
  destruct (m w) as [[a|e|k] w1]; cbn [fst] in *; [apply Hf|done|].
  exfalso. by apply (Hm k).
Qed.

Lemma no_exit_read_file (p : string) : no_exit (read_file p).
Proof. intros w n. unfold read_file. by repeat case_match. Qed.

Lemma no_exit_set_crs (epsg : CRS) (gdf : GeoDataFrame) : no_exit (set_crs epsg gdf).
Proof. intros w n. unfold set_crs. by repeat case_match. Qed.

Lemma no_exit_to_crs (epsg : CRS) (gdf : GeoDataFrame) : no_exit (to_crs epsg gdf).
Proof. intros w n. unfold to_crs. by repeat case_match. Qed.

Lemma no_exit_bounds_for_limits (gdf : GeoDataFrame) : no_exit (bounds_for_limits gdf).
Proof. intros w n. unfold bounds_for_limits. by case_match. Qed.

Lemma no_exit_add_basemap (ax : Axes) : no_exit (add_basemap ax).
Proof. intros w n. unfold add_basemap. by case_match. Qed.

Lemma no_exit_transformer (src dst : CRS) : no_exit (Transformer_from_crs src dst).
Proof. by intros w n. Qed.

Lemma no_exit_makedirs (dir : string) : no_exit (makedirs dir).
Proof. intros w n. unfold makedirs. by repeat case_match. Qed.

Lemma no_exit_savefig (path : string) (fig : Axes) : no_exit (savefig path fig).
Proof. intros w n. unfold savefig. by case_match. Qed.

Lemma no_exit_print (line : string) : no_exit (print line).
Proof. by intros w n. Qed.

Lemma no_exit_show : no_exit show.
Proof. by intros w n. Qed.

Create HintDb exits.

#[local] Hint Resolve no_exit_read_file no_exit_set_crs no_exit_to_crs
  no_exit_bounds_for_limits no_exit_add_basemap no_exit_transformer
  no_exit_makedirs no_exit_savefig no_exit_print no_exit_show : exits.

Lemma no_exit_create_base_map (p d : string) : no_exit (create_base_map p d).
Proof.
  unfold create_base_map.
  repeat (apply no_exit_bind; [solve [auto with exits]|intros ?; cbv zeta]).
  auto with exits.
Qed.

Lemma no_exit_process (p : string) : no_exit (process p).
Proof.
  unfold process.
  do 3 (apply no_exit_bind; [solve [auto with exits]|intros ?]).
  apply no_exit_create_base_map.
Qed.

(** [main], once a line has been read: the cleaned path is looked up, and
    the run either goes on to [process] or reports and exits. *)
Lemma main_run (w : World) (line : string) (rest : list string) :
  stdin w = line :: rest ->
  main w =
  if found w (clean_path line)
  then process (clean_path line) (checked w rest (clean_path line))
  else (Exit 1, log (EPrint ("Error: File not found at " +:+ clean_path line))
                    (checked w rest (clean_path line))).
Proof.
  intros Hin. unfold main, mbind, M_bind, print, input, os_path_exists, exit, found.
  cbn [stdin log files dirs events]. rewrite Hin.
  cbn [stdin log files dirs events].
  destruct (_ || _); cbn [negb]; unfold checked, log;
    cbn [stdin files dirs writable tiles transform events];
    rewrite <- !List.app_assoc; reflexivity.
Qed.

End MainFacts.

(** ** Paths, once more *)

Module PathFacts.
Import PyStr OsPath Script Spec StrFacts.

Lemma drop_length_app (a s : string) : drop (String.length a) (a +:+ s) = s.
Proof. induction a as [|c a IH]; [by destruct s|]. by rewrite app_cons. Qed.

Lemma append_inv_head (a x y : string) : a +:+ x = a +:+ y -> x = y.
Proof.
  induction a as [|c a IH]; [done|]. rewrite !app_cons. intros [= H]. by apply IH.
Qed.

(** The last [c] of [a +:+ c +:+ b], when [b] holds none. *)
Lemma rfind_app_sep (c : ascii) (a b : string) :
  rfind c b = (-1)%Z ->
  rfind c (a +:+ String c b) = Z.of_nat (String.length a).
Proof.
  intros Hb. induction a as [|x a IH].
  - rewrite app_empty_l. cbn [rfind]. rewrite Hb, Ascii.eqb_refl. reflexivity.
  - rewrite app_cons. cbn [rfind String.length]. rewrite IH.
    destruct (Z.leb_spec 0 (Z.of_nat (String.length a))); lia.
Qed.

Lemma rfind_app_both_none (c : ascii) (a b : string) :
  rfind c a = (-1)%Z -> rfind c b = (-1)%Z -> rfind c (a +:+ b) = (-1)%Z.
Proof.
  intros Ha Hb. induction a as [|x a IH]; [done|].
  rewrite app_cons. cbn [rfind] in *. pose proof (rfind_lower c a).
  destruct (Z.leb_spec 0 (rfind c a)); [lia|].
  destruct (Ascii.eqb x c); [lia|]. rewrite IH by lia. reflexivity.
Qed.

Lemma endswith_split (c : ascii) (s : string) :
  endswith c s = true -> exists s', s = s' +:+ String c EmptyString.
Proof.
  induction s as [|a s IH]; [done|]. destruct s as [|b s].
  - cbn. intros ->%Ascii.eqb_eq. by exists EmptyString.
  - intros H. destruct (IH H) as [s' Hs']. exists (String a s').
    by rewrite app_cons, <- Hs'.
Qed.

Lemma basename_no_slash (name : string) :
  rfind slash name = (-1)%Z -> basename name = name.
Proof. unfold basename. by intros ->. Qed.

Lemma basename_app_slash (a name : string) :
  rfind slash name = (-1)%Z -> basename (a +:+ String slash name) = name.
Proof.
  intros Hn. unfold basename. rewrite (rfind_app_sep _ _ _ Hn).
  replace (Z.to_nat (Z.of_nat (String.length a) + 1))
    with (String.length (a +:+ String slash EmptyString)).
  - replace (a +:+ String slash name)
      with ((a +:+ String slash EmptyString) +:+ name)
      by (by rewrite app_assoc).
    apply drop_length_app.
  - clear. induction a as [|x a IH]; [done|].
    rewrite app_cons. cbn [String.length]. lia.
Qed.

(** A file name put into a directory is the base name of the result. *)
Lemma basename_join (d name : string) :
  rfind slash name = (-1)%Z -> basename (join d name) = name.
Proof.
  intros Hn. unfold join. rewrite (rfind_none_head _ _ Hn).
  destruct (is_empty d) eqn:Hd; cbn [orb].
  - destruct d; [|done]. by apply basename_no_slash.
  - destruct (endswith slash d) eqn:He; [|by apply basename_app_slash].
    destruct (endswith_split _ _ He) as [d' ->].
    rewrite app_assoc. by apply basename_app_slash.
Qed.

Lemma shapefile_name_no_slash (p : string) :
  rfind slash (shapefile_name p) = (-1)%Z.
Proof.
  destruct (basename_split p) as (_ & _ & _ & Hsl).
  destruct (splitext_split (basename p)) as [Hb _].
  rewrite Hb in Hsl. by apply rfind_app_none in Hsl.
Qed.

(** The base name of the output path. *)
Lemma basename_output_path (p d : string) :
  basename (output_path p d) = shapefile_name p +:+ "_basemap.png".
Proof.
  unfold output_path. apply basename_join.
  apply rfind_app_both_none; [apply shapefile_name_no_slash|reflexivity].
Qed.

(** Cutting the extension leaves an empty root only of an empty name. *)
Lemma splitext_root_empty (b : string) :
  fst (splitext b) = EmptyString -> b = EmptyString.
Proof.
  unfold splitext.
  destruct (rfind slash b <? rfind dot b)%Z eqn:Hlt; cbn [andb]; [|done].
  destruct (has_non_dot _ _ _) eqn:Hnd; [|done]. cbn [fst]. intros Ht.
  apply Z.ltb_lt in Hlt. pose proof (rfind_lower slash b).
  destruct (Z.to_nat (rfind dot b - (rfind slash b + 1))) as [|n] eqn:Hn;
    [discriminate Hnd|].
  destruct b as [|c b]; [done|].
  replace (Z.to_nat (rfind dot (String c b)))
    with (S (Z.to_nat (rfind dot (String c b) - 1))) in Ht by lia.
  discriminate Ht.
Qed.

(** [has_non_dot] from the start of a name, over a prefix of it. *)
Lemma has_non_dot_prefix (root t : string) :
  has_non_dot (root +:+ t) 0 (String.length root) = negb (all_chars isdot root).
Proof.
  assert (forall s i n c, has_non_dot (String c s) (S i) n = has_non_dot s i n) as Hshift.
  { intros s i n. revert i. induction n as [|n IH]; intros i c; [done|].
    cbn [has_non_dot]. rewrite IH. reflexivity. }
  induction root as [|c root IH]; [done|].
  rewrite app_cons. cbn [String.length has_non_dot all_chars].
  unfold char_at. cbn [drop take]. unfold isdot at 1.
  destruct (Ascii.eqb_spec c dot) as [->|Hne].
  - cbn [negb andb]. rewrite String.eqb_refl. cbn [negb]. by rewrite Hshift, IH.
  - cbn [negb andb].
    destruct (String.eqb_spec (String c EmptyString) (String dot EmptyString)) as [[= H]|_];
      [done|reflexivity].
Qed.

Lemma take_length_app (a s : string) : take (String.length a) (a +:+ s) = a.
Proof. induction a as [|c a IH]; [by destruct s|]. rewrite app_cons. cbn. by rewrite IH. Qed.

(** A name with an extension after a root that is not all dots: the
    extension is cut off. *)
Lemma splitext_cuts (root e : string) :
  rfind slash (root +:+ String dot e) = (-1)%Z ->
  rfind dot e = (-1)%Z ->
  all_chars isdot root = false ->
  splitext (root +:+ String dot e) = (root, String dot e).
Proof.
  intros Hsl He Hroot. unfold splitext.
  rewrite Hsl, (rfind_app_sep _ _ _ He).
  change (Z.to_nat (-1 + 1)) with 0%nat.
  replace (Z.to_nat (Z.of_nat (String.length root) - (-1 + 1)))
    with (String.length root) by lia.
  rewrite has_non_dot_prefix, Hroot, Nat2Z.id, take_length_app, drop_length_app.
  destruct (Z.ltb_spec (-1) (Z.of_nat (String.length root))); [reflexivity|lia].
Qed.

(** The base name of a path that is a directory part and a name. *)
Lemma basename_of_parts (dir_part name : string) :
  dir_part = EmptyString \/ endswith slash dir_part = true ->
  rfind slash name = (-1)%Z ->
  basename (dir_part +:+ name) = name.
Proof.
  intros [->|He] Hn; [by apply basename_no_slash|].
  destruct (endswith_split _ _ He) as [d' ->].
  rewrite app_assoc. by apply basename_app_slash.
Qed.

End PathFacts.

(** ** The bounding box *)

Module BoundsFacts.
Import Geo Terms.
Open Scope Q_scope.

Lemma covers_refl (b : Bounds) : covers b b.
Proof. destruct b as [[[a c] e] f]. cbn. repeat split; apply Qle_refl. Qed.

Lemma covers_trans (b1 b2 b3 : Bounds) :
  covers b1 b2 -> covers b2 b3 -> covers b1 b3.
Proof.
  destruct b1 as [[[a1 c1] e1] f1], b2 as [[[a2 c2] e2] f2], b3 as [[[a3 c3] e3] f3].
  cbn. intros (H1 & H2 & H3 & H4) (K1 & K2 & K3 & K4).
  repeat split; eapply Qle_trans; eauto.
Qed.

Lemma inside_covers (b' b : Bounds) (pt : Point) :
  covers b' b -> inside b pt -> inside b' pt.
Proof.
  destruct b' as [[[a1 c1] e1] f1], b as [[[a2 c2] e2] f2].
  cbn. intros (H1 & H2 & H3 & H4) (K1 & K2 & K3 & K4).
  repeat split; eapply Qle_trans; eauto.
Qed.

Lemma grow_covers (b : Bounds) (pt : Point) : covers (grow b pt) b.
Proof.
  destruct b as [[[a c] e] f]. cbn.
  repeat split; auto using Q.le_min_l, Q.le_max_l.
Qed.

Lemma grow_inside (b : Bounds) (pt : Point) : inside (grow b pt) pt.
Proof.
  destruct b as [[[a c] e] f]. cbn.
  repeat split; auto using Q.le_min_r, Q.le_max_r.
Qed.

Lemma fold_grow_covers (ps : list Point) (b : Bounds) :
  covers (fold_left grow ps b) b.
Proof.
  revert b. induction ps as [|pt ps IH]; intros b; [apply covers_refl|].
  cbn [fold_left]. eapply covers_trans; [apply IH|apply grow_covers].
Qed.

Lemma fold_grow_inside (ps : list Point) (b : Bounds) (pt : Point) :
  In pt ps -> inside (fold_left grow ps b) pt.
Proof.
  revert b. induction ps as [|q ps IH]; intros b; [intros []|].
  cbn [fold_left]. intros [->|Hin]; [|by apply IH].
  eapply inside_covers; [apply fold_grow_covers|apply grow_inside].
Qed.

(** Every coordinate of the frame lies in its bounding box. *)
Lemma total_bounds_inside (g : GeoDataFrame) (b : Bounds) (pt : Point) :
  total_bounds g = Some b -> In pt (coords g) -> inside b pt.
Proof.
  unfold total_bounds. destruct (coords g) as [|q ps]; [discriminate|].
  intros [= <-] [->|Hin]; [|by apply fold_grow_inside].
  eapply inside_covers; [apply fold_grow_covers|].
  cbn. repeat split; apply Qle_refl.
Qed.

(** A bounding box exists exactly for a frame with a coordinate. *)
Lemma total_bounds_none (g : GeoDataFrame) :
  total_bounds g = None <-> coords g = [].
Proof. unfold total_bounds. by destruct (coords g). Qed.

(** Mapping the coordinates of an empty layer gives an empty layer. *)
Lemma concat_map_nil {A B : Type} (f : A -> B) (l : list (list A)) :
  concat l = [] -> concat (map (map f) l) = [].
Proof.
  induction l as [|x l IH]; [done|]. cbn [concat map].
  intros [-> Hl]%app_eq_nil. by rewrite (IH Hl).
Qed.

(** A bounding box is not inverted. *)
Lemma total_bounds_ordered (g : GeoDataFrame) (west south east north : Q) :
  total_bounds g = Some (west, south, east, north) ->
  west <= east /\ south <= north.
Proof.
  intros Hb. destruct (coords g) as [|q ps] eqn:Hc.
  - apply total_bounds_none in Hc. congruence.
  - assert (In q (coords g)) as Hin by (rewrite Hc; by left).
    destruct (total_bounds_inside g _ q Hb Hin) as (H1 & H2 & H3 & H4).
    split; eapply Qle_trans; eauto.
Qed.

End BoundsFacts.

(** ** What a run leaves alone *)

Module QuietFacts.
Import PyStr OsPath Num Geo Plot Sys Script Spec Terms RunFacts MainFacts.

Lemma quiet_refl (w : World) : quiet w w.
Proof. repeat split; try done. exists []. by rewrite List.app_nil_r. Qed.

Lemma quiet_trans (w1 w2 w3 : World) : quiet w1 w2 -> quiet w2 w3 -> quiet w1 w3.
Proof.
  intros (H1 & H2 & H3 & H4 & H5 & es & H6) (K1 & K2 & K3 & K4 & K5 & es' & K6).
  repeat split; try congruence.
  - set_solver.
  - exists (es ++ es')%list. by rewrite K6, H6, List.app_assoc.
Qed.

Lemma quiet_log (e : Event) (w : World) : quiet w (log e w).
Proof. repeat split; try done. by exists [e]. Qed.

Lemma steady_bind {A B : Type} (m : M A) (f : A -> M B) :
  steady m -> (forall a, steady (f a)) -> steady (m ≫= f).
Proof.
  intros Hm Hf w. unfold mbind, M_bind. specialize (Hm w).
  destruct (m w) as [[a|e|n] w1]; cbn [snd] in *; try done.
  eapply quiet_trans; [exact Hm|apply Hf].
Qed.

Lemma steady_read_file (p : string) : steady (read_file p).
Proof. intros w. unfold read_file. repeat case_match; apply quiet_log. Qed.

Lemma steady_set_crs (epsg : CRS) (gdf : GeoDataFrame) : steady (set_crs epsg gdf).
Proof. intros w. unfold set_crs. repeat case_match; apply quiet_refl. Qed.

Lemma steady_to_crs (epsg : CRS) (gdf : GeoDataFrame) : steady (to_crs epsg gdf).
Proof. intros w. unfold to_crs. repeat case_match; apply quiet_refl. Qed.

Lemma steady_bounds_for_limits (gdf : GeoDataFrame) : steady (bounds_for_limits gdf).
Proof. intros w. unfold bounds_for_limits. case_match; apply quiet_refl. Qed.

Lemma steady_add_basemap (ax : Axes) : steady (add_basemap ax).
Proof. intros w. unfold add_basemap. case_match; apply quiet_log. Qed.

Lemma steady_transformer (src dst : CRS) : steady (Transformer_from_crs src dst).
Proof. intros w. apply quiet_refl. Qed.

Lemma steady_makedirs (dir : string) : steady (makedirs dir).
Proof.
  intros w. unfold makedirs. repeat case_match; try apply quiet_log.
  repeat split; try done; cbn; [set_solver|by eexists].
Qed.

Lemma steady_savefig (path : string) (fig : Axes) : steady (savefig path fig).
Proof.
  intros w. unfold savefig. case_match; [|apply quiet_log].
  repeat split; try done. by eexists.
Qed.

Lemma steady_print (line : string) : steady (print line).
Proof. intros w. apply quiet_log. Qed.

Lemma steady_show : steady show.
Proof. intros w. apply quiet_log. Qed.

Create HintDb steadies.

#[local] Hint Resolve steady_read_file steady_set_crs steady_to_crs
  steady_bounds_for_limits steady_add_basemap steady_transformer
  steady_makedirs steady_savefig steady_print steady_show : steadies.

Lemma steady_create_base_map (p d : string) : steady (create_base_map p d).
Proof.
  unfold create_base_map.
  repeat (apply steady_bind; [solve [auto with steadies]|intros ?; cbv zeta]).
  auto with steadies.
Qed.

Lemma steady_process (p : string) : steady (process p).
Proof.
  unfold process.
  do 3 (apply steady_bind; [solve [auto with steadies]|intros ?]).
  apply steady_create_base_map.
Qed.

(** [main] at the end of standard input. *)
Lemma main_eof (w : World) :
  stdin w = [] ->
  main w = (Raise EOFError,
            log EInput
              (log (EPrint "Please enter the path to your shapefile/GeoJSON file:") w)).
Proof.
  intros Hin. unfold main, mbind, M_bind, print, input.
  cbn [stdin log]. rewrite Hin. reflexivity.
Qed.

(** [makedirs] where the directory can be made, and where it cannot. *)
Lemma makedirs_creatable (dir : string) (w : World) :
  fst (makedirs dir w) = if creatable w dir then Ok tt else Raise OSError.
Proof.
  unfold makedirs, creatable. case_bool_decide; [done|]. cbn [orb].
  case_bool_decide; [done|]. cbn [negb andb]. by destruct (writable w dir).
Qed.

Lemma makedirs_dirs (dir : string) (w : World) :
  creatable w dir = true -> dir ∈ dirs (snd (makedirs dir w)).
Proof.
  unfold makedirs, creatable. case_bool_decide as Hd; [done|]. cbn [orb].
  case_bool_decide; [done|]. cbn [negb andb]. intros ->. cbn. set_solver.
Qed.

Lemma makedirs_fail (dir : string) (w : World) :
  creatable w dir = false -> makedirs dir w = (Raise OSError, log (EMakedirs dir) w).
Proof.
  unfold makedirs, creatable. case_bool_decide; [done|]. cbn [orb].
  case_bool_decide; [done|]. cbn [negb andb]. by intros ->.
Qed.

Lemma read_file_logs (p : string) (w : World) :
  snd (read_file p w) = log (EReadFile p) w.
Proof. unfold read_file. by repeat case_match. Qed.

(** Whatever happens, reading the file is the first thing a run does. *)
Lemma create_base_map_reads_first (p d : string) (w : World) :
  exists es,
    events (snd (create_base_map p d w)) = (events w ++ EReadFile p :: es)%list.
Proof.
  unfold create_base_map. pose proof (read_file_logs p w) as Hlog.
  destruct (read_file p w) as [[gdf|e|n] w1] eqn:Hr; cbn [snd] in Hlog; subst w1.
  - rewrite (bind_run _ _ _ _ _ Hr).
    lazymatch goal with
    | |- exists es, events (snd (?m ?w0)) = _ =>
        assert (steady m) as Hs
          by (repeat (apply steady_bind; [solve [auto with steadies]|intros ?; cbv zeta]);
              auto with steadies);
        destruct (Hs w0) as (_ & _ & _ & _ & _ & es & He)
    end.
    exists es. rewrite He. cbn [events log]. by rewrite <- List.app_assoc.
  - rewrite (bind_raise _ _ _ _ _ Hr). by exists [].
  - exfalso. apply (no_exit_read_file p w n). by rewrite Hr.
Qed.


End QuietFacts.

(** * The claims *)

Module Claims.
Import PyStr OsPath Num Geo Plot Sys Script Spec.
Import StrFacts StripFacts TitleFacts RunFacts Pipeline FigureFacts LimFacts TickFacts MainFacts PathFacts.
Import Terms BoundsFacts QuietFacts Sample Worlds.
Open Scope Q_scope.




(** C2. For every input path and output directory, a run of
    [create_base_map] that ends normally writes exactly one PNG; its path is
    the output directory joined with the base name of the input path, cut
    before its extension and otherwise unchanged (so with its underscores),
    followed by [_basemap.png]. The base name is what follows the last
    slash; the extension, from the last dot of the base name on, is cut off
    whenever something other than dots stands before that dot. The joined
    path is the directory, a slash where the directory does not end in one,
    and the name. *)
Theorem output_file_named (p d : string) (w : World) :
  completes (create_base_map p d) w ->
  (exists fig, files (after (create_base_map p d) w)
               = <[output_path p d := PngFile fig]> (files w))
  /\ saved_paths (new_events w (after (create_base_map p d) w)) = [output_path p d]
  /\ output_path p d = join d (shapefile_name p +:+ "_basemap.png")
  /\ (output_path p d = d +:+ shapefile_name p +:+ "_basemap.png"
      \/ output_path p d = d +:+ String slash (shapefile_name p +:+ "_basemap.png"))
  /\ (exists dir_part ext,
        p = dir_part +:+ shapefile_name p +:+ ext
        /\ (dir_part = EmptyString \/ endswith slash dir_part = true)
        /\ rfind slash (shapefile_name p +:+ ext) = (-1)%Z
        /\ (ext = EmptyString \/ exists e, ext = String dot e /\ rfind dot e = (-1)%Z))
  /\ (forall dir_part root e,
        p = dir_part +:+ root +:+ String dot e ->
        dir_part = EmptyString \/ endswith slash dir_part = true ->
        rfind slash (root +:+ String dot e) = (-1)%Z ->
        rfind dot e = (-1)%Z ->
        all_chars isdot root = false ->
        shapefile_name p = root).
Proof.
  intros Hrun. repeat apply conj.
  - pose proof (create_base_map_saves_or_keeps p d w) as Hfiles.
    unfold completes in Hrun. by rewrite Hrun in Hfiles.
  - destruct (create_base_map_completes p d w Hrun)
      as (_ & b & _ & _ & _ & _ & _ & _ & Hev).
    unfold new_events. rewrite Hev, drop_app_length. reflexivity.
  - reflexivity.
  - assert (startswith slash (shapefile_name p +:+ "_basemap.png") = false) as Hrel.
    { pose proof (shapefile_name_no_slash p) as Hsl.
      apply rfind_none_head in Hsl. by destruct (shapefile_name p). }
    unfold output_path, join. rewrite Hrel.
    destruct (is_empty d || endswith slash d); [by left|by right].
  - destruct (basename_split p) as (dir_part & Hp & Hdir & Hsl).
    destruct (splitext_split (basename p)) as [Hb Hext].
    exists dir_part, (snd (splitext (basename p))). unfold shapefile_name.
    rewrite <- Hb. done.
  - intros dir_part root e -> Hdir Hsl He Hroot. unfold shapefile_name.
    rewrite (basename_of_parts _ _ Hdir Hsl), (splitext_cuts _ _ Hsl He Hroot).
    reflexivity.
Qed.

Lemma output_file_named_witness :
  (exists fig, files (after (create_base_map sample_path "out") sample_world)
               = <["out/study_area_basemap.png" := PngFile fig]> (files sample_world))
  /\ saved_paths (new_events sample_world
                    (after (create_base_map sample_path "out") sample_world))
     = ["out/study_area_basemap.png"]
  /\ shapefile_name sample_path = "study_area".
Proof.
  destruct (output_file_named sample_path "out" sample_world)
    as (Hfile & Hsaved & _ & _ & _ & Hcut); [vm_compute; reflexivity|].
  split; [exact Hfile|]. split; [exact Hsaved|].
  apply (Hcut "/data/" "study_area" "shp"); reflexivity || (by left) || (by right).
Defined.

(** C3. For every input extent, a run that ends normally sets exactly six
    tick positions on each axis; they start at the padded lower limit (the
    lower bound less a fifth of the range), end at the padded upper limit
    (the upper bound plus a fifth of the range), and two neighbours differ
    by a fifth of the padded range. The ticks stay in the metric system of the axes; only the
    label of a tick is made from its conversion to degrees, taken along the
    south edge for x and along the west edge for y. *)
Theorem ticks_evenly_spaced (p d : string) (w : World) (gdf : GeoDataFrame)
    (west south east north : Q) :
  files w !! p = Some (VectorFile gdf) ->
  total_bounds (reprojected w gdf) = Some (west, south, east, north) ->
  completes (create_base_map p d) w ->
  exists fig,
    files (after (create_base_map p d) w) !! output_path p d = Some (PngFile fig)
    /\ length (ax_xticks fig) = 6%nat
    /\ length (ax_yticks fig) = 6%nat
    /\ nth 0 (ax_xticks fig) 0 == fst (padded_xlim (west, south, east, north))
    /\ nth 5 (ax_xticks fig) 0 == snd (padded_xlim (west, south, east, north))
    /\ nth 0 (ax_yticks fig) 0 == fst (padded_ylim (west, south, east, north))
    /\ nth 5 (ax_yticks fig) 0 == snd (padded_ylim (west, south, east, north))
    /\ (forall i, (i < 5)%nat ->
          nth (S i) (ax_xticks fig) 0 - nth i (ax_xticks fig) 0
          == (snd (padded_xlim (west, south, east, north))
              - fst (padded_xlim (west, south, east, north))) / 5)
    /\ (forall i, (i < 5)%nat ->
          nth (S i) (ax_yticks fig) 0 - nth i (ax_yticks fig) 0
          == (snd (padded_ylim (west, south, east, north))
              - fst (padded_ylim (west, south, east, north))) / 5)
    /\ ax_xticklabels fig
       = map (fun x => format_2f (fst (transform w epsg_3857 epsg_4326 (x, south)))
                       +:+ "°E")
             (ax_xticks fig)
    /\ ax_yticklabels fig
       = map (fun y => format_2f (snd (transform w epsg_3857 epsg_4326 (west, y)))
                       +:+ "°N")
             (ax_yticks fig).
Proof.
  intros Hfile Hb Hrun.
  destruct (create_base_map_completes p d w Hrun)
    as (gdf' & b & img & Hfile' & _ & Hb' & _ & Hfiles & _).
  rewrite Hfile in Hfile'. injection Hfile' as <-.
  rewrite Hb in Hb'. injection Hb' as <-.
  eexists. split; [rewrite Hfiles; apply lookup_insert_eq|].
  rewrite figure_xticks, figure_yticks,
    figure_xticklabels, figure_yticklabels, padded_xlim_eq, padded_ylim_eq.
  cbn [fst snd].
  set (xlo := west - (east - west) * 0.2). set (xhi := east + (east - west) * 0.2).
  set (ylo := south - (north - south) * 0.2). set (yhi := north + (north - south) * 0.2).
  change (x_ticks (west, south, east, north)) with (linspace xlo xhi 6).
  change (y_ticks (west, south, east, north)) with (linspace ylo yhi 6).
  repeat apply conj.
  - reflexivity.
  - reflexivity.
  - rewrite linspace_6_nth by lia. cbn. field.
  - reflexivity.
  - rewrite linspace_6_nth by lia. cbn. field.
  - reflexivity.
  - intros i Hi. rewrite !linspace_6_nth by lia.
    rewrite Nat2Z.inj_succ, <- Z.add_1_r, inject_Z_plus. field.
  - intros i Hi. rewrite !linspace_6_nth by lia.
    rewrite Nat2Z.inj_succ, <- Z.add_1_r, inject_Z_plus. field.
  - unfold x_tick_lons.
    change (x_ticks (west, south, east, north)) with (linspace xlo xhi 6).
    apply (labels_of_ticks_x (fun lon => format_2f lon +:+ "°E")).
  - unfold y_tick_lats.
    change (y_ticks (west, south, east, north)) with (linspace ylo yhi 6).
    apply (labels_of_ticks_y (fun lat => format_2f lat +:+ "°N")).
Qed.

Lemma ticks_evenly_spaced_witness :
  exists fig,
    files (after (create_base_map sample_path "out") sample_world)
      !! output_path sample_path "out" = Some (PngFile fig)
    /\ length (ax_xticks fig) = 6%nat
    /\ length (ax_yticks fig) = 6%nat
    /\ nth 0 (ax_xticks fig) 0 == fst (padded_xlim (10000, 20000, 30000, 60000))
    /\ nth 5 (ax_xticks fig) 0 == snd (padded_xlim (10000, 20000, 30000, 60000))
    /\ nth 0 (ax_yticks fig) 0 == fst (padded_ylim (10000, 20000, 30000, 60000))
    /\ nth 5 (ax_yticks fig) 0 == snd (padded_ylim (10000, 20000, 30000, 60000))
    /\ (forall i, (i < 5)%nat ->
          nth (S i) (ax_xticks fig) 0 - nth i (ax_xticks fig) 0
          == (snd (padded_xlim (10000, 20000, 30000, 60000)) - fst (padded_xlim (10000, 20000, 30000, 60000))) / 5)
    /\ (forall i, (i < 5)%nat ->
          nth (S i) (ax_yticks fig) 0 - nth i (ax_yticks fig) 0
          == (snd (padded_ylim (10000, 20000, 30000, 60000)) - fst (padded_ylim (10000, 20000, 30000, 60000))) / 5)
    /\ ax_xticklabels fig
       = map (fun x => format_2f (fst (sample_transform epsg_3857 epsg_4326 (x, 20000)))
                       +:+ "°E")
             (ax_xticks fig)
    /\ ax_yticklabels fig
       = map (fun y => format_2f (snd (sample_transform epsg_3857 epsg_4326 (10000, y)))
                       +:+ "°N")
             (ax_yticks fig).
Proof.
  apply (ticks_evenly_spaced sample_path "out" sample_world sample_gdf
           10000 20000 30000 60000); vm_compute; reflexivity.
Defined.

(** C7. For every input extent, a run that ends normally draws the scale
    bar as a line of length 15000 in map units whose right end is 5000 left
    of the right padded limit, at the height of the bottom padded limit plus
    0.05 times the unpadded y range; a marker from 300 below to 300 above
    stands at each end, and the caption [15 KM] is centred on the middle of
    the bar, 500 above it. The caption is the one text in data coordinates;
    the other text of the figure is the attribution of the basemap, in the
    corner of the axes. The bar ends left of the right padded limit and,
    the y range not being negative, does not lie below the bottom padded
    limit. *)
Theorem scale_bar_placed (p d : string) (w : World) (gdf : GeoDataFrame)
    (west south east north : Q) :
  files w !! p = Some (VectorFile gdf) ->
  total_bounds (reprojected w gdf) = Some (west, south, east, north) ->
  completes (create_base_map p d) w ->
  exists fig x0 x1 y,
    files (after (create_base_map p d) w) !! output_path p d = Some (PngFile fig)
    /\ ax_lines fig
       = [mkLine [x0; x1] [y; y] 6;
          mkLine [x0; x0] [y - 300; y + 300] 2;
          mkLine [x1; x1] [y - 300; y + 300] 2]
    /\ x1 - x0 == 15000
    /\ x1 == snd (padded_xlim (west, south, east, north)) - 5000
    /\ y == fst (padded_ylim (west, south, east, north)) + 0.05 * (north - south)
    /\ (exists a t, ax_texts fig = [a; t]
                  /\ text_transform a = TransAxes
                  /\ text_transform t = TransData
                  /\ text_s t = "15 KM"
                  /\ text_ha t = HCenter
                  /\ text_va t = VBottom
                  /\ text_x t == (x0 + x1) / 2
                  /\ text_y t == y + 500)
    /\ x1 < snd (padded_xlim (west, south, east, north))
    /\ (south <= north -> fst (padded_ylim (west, south, east, north)) <= y).
Proof.
  intros Hfile Hb Hrun.
  destruct (create_base_map_completes p d w Hrun)
    as (gdf' & b & img & Hfile' & _ & Hb' & _ & Hfiles & _).
  rewrite Hfile in Hfile'. injection Hfile' as <-.
  rewrite Hb in Hb'. injection Hb' as <-.
  eexists _, _, _, _. split; [rewrite Hfiles; apply lookup_insert_eq|].
  rewrite figure_lines, figure_texts, padded_xlim_eq, padded_ylim_eq.
  split; [reflexivity|].
  unfold scalebar_x_start, scalebar_y, scalebar_length, x_padding, y_padding,
    x_range, y_range.
  cbn [fst snd].
  repeat apply conj; try (intros; lra).
  eexists _, _. repeat apply conj; try reflexivity; cbn [text_x text_y]; field.
Qed.

Lemma scale_bar_placed_witness :
  exists fig x0 x1 y,
    files (after (create_base_map sample_path "out") sample_world)
      !! output_path sample_path "out" = Some (PngFile fig)
    /\ ax_lines fig
       = [mkLine [x0; x1] [y; y] 6;
          mkLine [x0; x0] [y - 300; y + 300] 2;
          mkLine [x1; x1] [y - 300; y + 300] 2]
    /\ x1 - x0 == 15000
    /\ x1 == snd (padded_xlim (10000, 20000, 30000, 60000)) - 5000
    /\ y == fst (padded_ylim (10000, 20000, 30000, 60000)) + 0.05 * (60000 - 20000)
    /\ (exists a t, ax_texts fig = [a; t]
                  /\ text_transform a = TransAxes
                  /\ text_transform t = TransData
                  /\ text_s t = "15 KM"
                  /\ text_ha t = HCenter
                  /\ text_va t = VBottom
                  /\ text_x t == (x0 + x1) / 2
                  /\ text_y t == y + 500)
    /\ x1 < snd (padded_xlim (10000, 20000, 30000, 60000))
    /\ (20000 <= 60000 -> fst (padded_ylim (10000, 20000, 30000, 60000)) <= y).
Proof.
  apply (scale_bar_placed sample_path "out" sample_world sample_gdf
           10000 20000 30000 60000); vm_compute; reflexivity.
Defined.



(** C4. When the path read from standard input names nothing, the program
    prints an error message and exits with status 1; between start and
    exit it only writes to the terminal, reads the line and tests the path:
    no file is read or written, no directory made, no tile fetched. When
    the path names something, the program goes on to process it and never
    calls [exit]; its status is 0 exactly when the run ends normally. *)
Theorem missing_path_exits (w : World) (line : string) (rest : list string) :
  stdin w = line :: rest ->
  if found w (clean_path line)
  then main w = process (clean_path line) (checked w rest (clean_path line))
       /\ (forall n, fst (main w) <> Exit n)
       /\ (exit_status (fst (main w)) = 0%Z <-> completes main w)
  else fst (main w) = Exit 1
       /\ exit_status (fst (main w)) = 1%Z
       /\ new_events w (snd (main w))
          = [EPrint "Please enter the path to your shapefile/GeoJSON file:";
             EInput;
             EExists (clean_path line);
             EPrint ("Error: File not found at " +:+ clean_path line)]
       /\ forallb (fun e => negb (is_file_or_network_io e))
                  (new_events w (snd (main w))) = true
       /\ files (snd (main w)) = files w
       /\ dirs (snd (main w)) = dirs w.
Proof.
  intros Hin. pose proof (main_run w line rest Hin) as Hmain.
  destruct (found w (clean_path line)).
  - split; [exact Hmain|].
    pose proof (no_exit_process (clean_path line)
                  (checked w rest (clean_path line))) as Hne.
    unfold completes. rewrite Hmain. split; [exact Hne|].
    destruct (fst (process _ _)) as [[]|e|n] eqn:Ho; cbn [exit_status].
    + done.
    + split; intros H; discriminate H.
    + exfalso. by apply (Hne n).
  - rewrite Hmain. cbn [fst snd exit_status]. unfold new_events, log, checked.
    cbn [events]. rewrite <- List.app_assoc, drop_app_length. by repeat split.
Qed.

Lemma missing_path_exits_witness :
  stdin missing_world = ["/data/nowhere.shp"]
  /\ fst (main missing_world) = Exit 1
  /\ exit_status (fst (main missing_world)) = 1%Z
  /\ files (snd (main missing_world)) = files missing_world
  /\ stdin sample_world = [sample_line]
  /\ (exit_status (fst (main sample_world)) = 0%Z <-> completes main sample_world).
Proof.
  pose proof (missing_path_exits missing_world "/data/nowhere.shp" [] eq_refl) as Hm.
  pose proof (missing_path_exits sample_world sample_line [] eq_refl) as Hs.
  change (found missing_world (clean_path "/data/nowhere.shp")) with false in Hm.
  change (found sample_world (clean_path sample_line)) with true in Hs.
  destruct Hm as (H1 & H2 & _ & _ & H3 & _).
  destruct Hs as (_ & _ & H4).
  repeat split; try assumption; apply H4.
Defined.











End Claims.

(** * Further properties *)



(** ** Stripping, once more *)

Module StripMore.
Import PyStr Spec Terms StrFacts StripFacts.



Section OneSet.
Variable P : ascii -> bool.







Lemma head_not_app_l (a b : string) :
  nonempty a = true -> head_not P a -> head_not P (a +:+ b).
Proof. destruct a as [|c a]; [done|]. intros _ Ha z Hz. by apply Ha. Qed.

Lemma last_not_app_r (a b : string) :
  nonempty b = true -> last_not P b -> last_not P (a +:+ b).
Proof.
  destruct b as [|c b]; [done|]. intros _ Hb z. rewrite last_char_app.
  destruct (last_char_cons c b) as [y Hy]. rewrite Hy. intros [= <-]. by apply Hb.
Qed.
End OneSet.



(** Quotes on both sides: what stands between them is kept whole. *)
Lemma clean_path_between_quotes (wl ql m qr wr : string) :
  all_chars isspace wl = true -> all_chars isspace wr = true ->
  all_chars isquote ql = true -> all_chars isquote qr = true ->
  nonempty ql = true -> nonempty qr = true ->
  no_edge isquote m = true ->
  Script.clean_path (wl +:+ ql +:+ m +:+ qr +:+ wr) = m.
Proof.
  intros Hwl Hwr Hql Hqr Hnl Hnr Hm.
  unfold Script.clean_path, strip, strip_chars. fold isquote.
  replace (wl +:+ ql +:+ m +:+ qr +:+ wr)
    with (wl +:+ (ql +:+ m +:+ qr) +:+ wr) by (by rewrite !app_assoc).
  pose proof (all_chars_edges isspace isquote ql quote_not_space Hql) as [Hlh _].
  pose proof (all_chars_edges isspace isquote qr quote_not_space Hqr) as [_ Hrl].
  rewrite strip_with_sandwich; try done.
  - apply strip_with_sandwich; try done.
    + by apply no_edge_head.
    + by apply no_edge_last.
  - by apply head_not_app_l.
  - apply last_not_app_r; [by destruct m, qr|].
    apply last_not_app_r; done.
Qed.

End StripMore.


(** ** Ticks, once more *)

Module TickMore.
Import Num TickFacts.
Open Scope Q_scope.

#[local] Ltac samples i :=
  rewrite !linspace_6_nth by lia;
  destruct i as [|[|[|[|[|[|i]]]]]]; try lia;
  repeat match goal with
  | |- context [inject_Z (Z.of_nat ?k)] =>
      let v := eval vm_compute in (inject_Z (Z.of_nat k)) in
      change (inject_Z (Z.of_nat k)) with v
  end.

Lemma linspace_6_increasing (a b : Q) (i : nat) :
  a < b -> (i < 5)%nat ->
  nth i (linspace a b 6) 0 < nth (S i) (linspace a b 6) 0.
Proof.
  intros Hab Hi.
  assert (0 < (b - a) / 5) as Ht by (apply Qlt_shift_div_l; lra).
  samples i; set (t := (b - a) / 5) in *; lra.
Qed.

Lemma linspace_6_between (a b : Q) (i : nat) :
  a < b -> (i < 6)%nat ->
  a <= nth i (linspace a b 6) 0 /\ nth i (linspace a b 6) 0 <= b.
Proof.
  intros Hab Hi.
  assert (0 < (b - a) / 5) as Ht by (apply Qlt_shift_div_l; lra).
  assert (b == a + 5 * ((b - a) / 5)) as He by field.
  samples i; set (t := (b - a) / 5) in *; lra.
Qed.

End TickMore.

(** ** Title case, once more *)

Module TitleMore.
Import PyStr Spec Terms.

Lemma case_not_underscore (c : ascii) :
  not_underscore c = true ->
  not_underscore (upper c) = true /\ not_underscore (lower c) = true.
Proof. destruct c as [[] [] [] [] [] [] [] []]; vm_compute; auto. Qed.

Lemma upper_not_lower (c : ascii) : islower (upper c) = false.
Proof. destruct c as [[] [] [] [] [] [] [] []]; reflexivity. Qed.

Lemma title_from_not_underscore (prev : bool) (s : string) :
  all_chars not_underscore s = true ->
  all_chars not_underscore (title_from prev s) = true.
Proof.
  revert prev. induction s as [|c s IH]; intros prev; [done|].
  cbn [all_chars title_from]. intros [Hc Hs]%andb_prop.
  destruct (case_not_underscore c Hc) as [Hu Hl].
  rewrite (IH _ Hs), andb_true_r. by destruct prev.
Qed.

Lemma replace_not_underscore (s : string) :
  all_chars not_underscore (replace underscore space s) = true.
Proof.
  induction s as [|c s IH]; [done|]. cbn [all_chars replace]. rewrite IH, andb_true_r.
  unfold not_underscore. by destruct (Ascii.eqb c underscore) eqn:Hc; [|rewrite Hc].
Qed.

End TitleMore.

(** ** The properties *)

Module Extras.
Import PyStr OsPath Num Geo Plot Sys Script Spec Terms.
Import StrFacts StripFacts TitleFacts RunFacts Pipeline FigureFacts TickFacts MainFacts.
Import BoundsFacts PathFacts StripMore QuietFacts TickMore TitleMore LimFacts.
Import Sample Worlds.
Open Scope Q_scope.

(** X1. In the figure a run saves, the view is not inverted and holds
    every coordinate of the reprojected geometry. *)
Theorem view_contains_geometry (p d : string) (w : World) (gdf : GeoDataFrame)
    (pt : Point) :
  files w !! p = Some (VectorFile gdf) ->
  completes (create_base_map p d) w ->
  In pt (coords (reprojected w gdf)) ->
  exists fig,
    files (after (create_base_map p d) w) !! output_path p d = Some (PngFile fig)
    /\ in_view fig pt
    /\ fst (ax_xlim fig) <= snd (ax_xlim fig)
    /\ fst (ax_ylim fig) <= snd (ax_ylim fig).
Proof.
  intros Hfile Hrun Hin.
  destruct (create_base_map_completes p d w Hrun)
    as (gdf' & b & img & Hfile' & _ & Hb & _ & Hfiles & _).
  rewrite Hfile in Hfile'. injection Hfile' as <-.
  destruct b as [[[west south] east] north].
  pose proof (total_bounds_inside _ _ pt Hb Hin) as (H1 & H2 & H3 & H4).
  pose proof (total_bounds_ordered _ _ _ _ _ Hb) as [Hx Hy].
  eexists. split; [rewrite Hfiles; apply lookup_insert_eq|].
  unfold in_view.
  rewrite figure_xlim, figure_ylim, view_xlim_eq, view_ylim_eq,
    padded_xlim_eq, padded_ylim_eq.
  cbn [fst snd].
  destruct (set_lim_covers (west - (east - west) * 0.2) (east + (east - west) * 0.2))
    as (Hx1 & Hx2 & Hx3); [lra|].
  destruct (set_lim_covers (south - (north - south) * 0.2) (north + (north - south) * 0.2))
    as (Hy1 & Hy2 & Hy3); [lra|].
  repeat apply conj; lra.
Qed.

Lemma view_contains_geometry_witness :
  exists fig,
    files (after (create_base_map sample_path "out") sample_world)
      !! output_path sample_path "out" = Some (PngFile fig)
    /\ in_view fig (30000, 60000)
    /\ fst (ax_xlim fig) <= snd (ax_xlim fig)
    /\ fst (ax_ylim fig) <= snd (ax_ylim fig).
Proof.
  apply (view_contains_geometry sample_path "out" sample_world sample_gdf
           (30000, 60000)); [reflexivity|vm_compute; reflexivity|].
  vm_compute. tauto.
Defined.

(** X2. For a bounding box of positive width and height, the tick positions
    of each axis increase strictly and all lie within the padded limits. *)
Theorem ticks_increase_in_view (west south east north : Q) :
  west < east -> south < north ->
  (forall i, (i < 5)%nat ->
     nth i (x_ticks (west, south, east, north)) 0
     < nth (S i) (x_ticks (west, south, east, north)) 0)
  /\ (forall i, (i < 6)%nat ->
        fst (padded_xlim (west, south, east, north))
        <= nth i (x_ticks (west, south, east, north)) 0
        /\ nth i (x_ticks (west, south, east, north)) 0
           <= snd (padded_xlim (west, south, east, north)))
  /\ (forall i, (i < 5)%nat ->
        nth i (y_ticks (west, south, east, north)) 0
        < nth (S i) (y_ticks (west, south, east, north)) 0)
  /\ (forall i, (i < 6)%nat ->
        fst (padded_ylim (west, south, east, north))
        <= nth i (y_ticks (west, south, east, north)) 0
        /\ nth i (y_ticks (west, south, east, north)) 0
           <= snd (padded_ylim (west, south, east, north))).
Proof.
  intros Hx Hy. rewrite padded_xlim_eq, padded_ylim_eq. cbn [fst snd].
  set (xlo := west - (east - west) * 0.2). set (xhi := east + (east - west) * 0.2).
  set (ylo := south - (north - south) * 0.2). set (yhi := north + (north - south) * 0.2).
  change (x_ticks (west, south, east, north)) with (linspace xlo xhi 6).
  change (y_ticks (west, south, east, north)) with (linspace ylo yhi 6).
  assert (xlo < xhi) as Hxl by (unfold xlo, xhi; lra).
  assert (ylo < yhi) as Hyl by (unfold ylo, yhi; lra).
  clearbody xlo xhi ylo yhi.
  repeat apply conj; intros i Hi;
    auto using linspace_6_increasing, linspace_6_between.
Qed.

Lemma ticks_increase_in_view_witness :
  nth 2 (x_ticks (10000, 20000, 30000, 60000)) 0
  < nth 3 (x_ticks (10000, 20000, 30000, 60000)) 0
  /\ nth 5 (y_ticks (10000, 20000, 30000, 60000)) 0
     <= snd (padded_ylim (10000, 20000, 30000, 60000)).
Proof.
  destruct (ticks_increase_in_view 10000 20000 30000 60000 eq_refl eq_refl)
    as (Hx & _ & _ & Hy).
  split; [apply (Hx 2%nat); lia|apply (Hy 5%nat); lia].
Defined.

(** X3. For a bounding box of positive height the scale bar is drawn in the
    bottom margin: above the bottom limit of the view and strictly below
    the south edge of the data. *)
Theorem scale_bar_in_bottom_margin (west south east north : Q) :
  south < north ->
  fst (padded_ylim (west, south, east, north)) < scalebar_y (west, south, east, north)
  /\ scalebar_y (west, south, east, north) < south.
Proof.
  intros Hy. rewrite padded_ylim_eq.
  unfold scalebar_y, y_padding, y_range. cbn [fst snd]. split; lra.
Qed.

Lemma scale_bar_in_bottom_margin_witness :
  fst (padded_ylim (10000, 20000, 30000, 60000))
  < scalebar_y (10000, 20000, 30000, 60000)
  /\ scalebar_y (10000, 20000, 30000, 60000) < 20000.
Proof. apply (scale_bar_in_bottom_margin 10000 20000 30000 60000). reflexivity. Defined.

(** X4. Where the axes take the padded y limits as they are (a bounding
    box of substantial height), the end markers of the scale bar, which
    reach 300 below and above it, leave the view at the bottom exactly when
    the height of the bounding box is below 6000, and they reach above the
    south edge of the data exactly when it is below 2000. *)
Theorem end_markers_overflow (west south east north : Q) :
  substantial (fst (padded_ylim (west, south, east, north)))
              (snd (padded_ylim (west, south, east, north))) = true ->
  (scalebar_y (west, south, east, north) - 300
   < fst (view_ylim (west, south, east, north))
   <-> y_range (west, south, east, north) < 6000)
  /\ (south < scalebar_y (west, south, east, north) + 300
      <-> y_range (west, south, east, north) < 2000).
Proof.
  intros Hs. rewrite (view_ylim_substantial _ Hs), padded_ylim_eq.
  unfold scalebar_y, y_padding, y_range. cbn [fst snd].
  repeat apply conj; intros; lra.
Qed.

Lemma end_markers_overflow_witness :
  (scalebar_y (10000, 20000, 30000, 24000) - 300
   < fst (view_ylim (10000, 20000, 30000, 24000))
   <-> y_range (10000, 20000, 30000, 24000) < 6000)
  /\ (20000 < scalebar_y (10000, 20000, 30000, 24000) + 300
      <-> y_range (10000, 20000, 30000, 24000) < 2000).
Proof. apply (end_markers_overflow 10000 20000 30000 24000). reflexivity. Defined.

(** X5. [create_base_map] never writes over its input: the output path
    differs from the input path, whatever the two arguments are, and a run,
    however it ends, leaves the input file and every file other than the
    output path as they were. *)
Theorem input_file_kept (p d : string) (w : World) :
  output_path p d <> p
  /\ files (after (create_base_map p d) w) !! p = files w !! p
  /\ (forall q, q <> output_path p d ->
        files (after (create_base_map p d) w) !! q = files w !! q).
Proof.
  assert (output_path p d <> p) as Hne.
  { intros Heq. pose proof (basename_output_path p d) as Hb. rewrite Heq in Hb.
    destruct (splitext_split (basename p)) as [Hsplit Hext].
    fold (shapefile_name p) in Hsplit. rewrite Hsplit in Hb at 1.
    apply append_inv_head in Hb.
    destruct Hext as [He|(e & He & _)]; rewrite He in Hb; discriminate Hb. }
  assert (forall q, q <> output_path p d ->
            files (after (create_base_map p d) w) !! q = files w !! q) as Hq.
  { intros q Hq. pose proof (create_base_map_saves_or_keeps p d w) as H.
    unfold after. destruct (fst (create_base_map p d w)).
    - destruct H as [fig ->]. by apply lookup_insert_ne.
    - by rewrite H.
    - by rewrite H. }
  split; [exact Hne|]. split; [|exact Hq]. apply Hq. congruence.
Qed.

Lemma input_file_kept_witness :
  "/data/utm.shp" <> output_path sample_path "out"
  /\ files (after (create_base_map sample_path "out") sample_world) !! "/data/utm.shp"
     = files sample_world !! "/data/utm.shp".
Proof.
  assert ("/data/utm.shp" <> output_path sample_path "out") as H by discriminate.
  split; [exact H|].
  exact (proj2 (proj2 (input_file_kept sample_path "out" sample_world)) _ H).
Defined.

(** X6. A layer without any coordinate has no bounding box to set the view
    from: the run reads the file and then stops with an exception; no tile
    is fetched, no directory made and nothing written. *)
Theorem empty_geometry_refused (p d : string) (w : World) (gdf : GeoDataFrame) :
  files w !! p = Some (VectorFile gdf) ->
  assignable gdf = true ->
  coords gdf = [] ->
  create_base_map p d w
  = (Raise (ValueError "Axis limits cannot be NaN or Inf"), log (EReadFile p) w).
Proof.
  intros Hfile Hassign Hempty. unfold create_base_map.
  assert (read_file p w = (Ok gdf, log (EReadFile p) w)) as Hread
    by (unfold read_file; by rewrite Hfile).
  rewrite (bind_run _ _ _ _ _ Hread).
  rewrite (bind_assoc (set_crs epsg_4326 gdf) (to_crs epsg_3857)).
  assert ((set_crs epsg_4326 gdf ≫= to_crs epsg_3857) (log (EReadFile p) w)
          = (Ok (reprojected w gdf), log (EReadFile p) w)) as Hcrs
    by (by rewrite set_crs_to_crs, Hassign).
  rewrite (bind_run _ _ _ _ _ Hcrs). cbv zeta.
  apply bind_raise. unfold bounds_for_limits.
  assert (total_bounds (reprojected w gdf) = None) as ->; [|reflexivity].
  apply total_bounds_none. unfold coords, reprojected in *. cbn [gdf_geometry].
  by apply concat_map_nil.
Qed.

Lemma empty_geometry_refused_witness :
  create_base_map "/data/empty.shp" "out" empty_world
  = (Raise (ValueError "Axis limits cannot be NaN or Inf"),
     log (EReadFile "/data/empty.shp") empty_world).
Proof.
  apply (empty_geometry_refused "/data/empty.shp" "out" empty_world empty_gdf);
    reflexivity.
Defined.

(** X7. When the tile service fails, the run stops with that failure after
    reading the file and asking for the tiles of the view set on the axes:
    the output directory is not made and nothing is written. *)
Theorem tile_failure_stops (p d : string) (w : World) (gdf : GeoDataFrame)
    (b : Bounds) :
  files w !! p = Some (VectorFile gdf) ->
  assignable gdf = true ->
  total_bounds (reprojected w gdf) = Some b ->
  tiles w (view_xlim b) (view_ylim b) = None ->
  create_base_map p d w
  = (Raise ConnectionError,
     log (EFetchTiles (view_xlim b) (view_ylim b)) (log (EReadFile p) w)).
Proof.
  intros Hfile Hassign Hb Htiles. unfold create_base_map.
  assert (read_file p w = (Ok gdf, log (EReadFile p) w)) as Hread
    by (unfold read_file; by rewrite Hfile).
  rewrite (bind_run _ _ _ _ _ Hread).
  rewrite (bind_assoc (set_crs epsg_4326 gdf) (to_crs epsg_3857)).
  assert ((set_crs epsg_4326 gdf ≫= to_crs epsg_3857) (log (EReadFile p) w)
          = (Ok (reprojected w gdf), log (EReadFile p) w)) as Hcrs
    by (by rewrite set_crs_to_crs, Hassign).
  rewrite (bind_run _ _ _ _ _ Hcrs). cbv zeta.
  assert (bounds_for_limits (reprojected w gdf) (log (EReadFile p) w)
          = (Ok b, log (EReadFile p) w)) as Hbl
    by (unfold bounds_for_limits; by rewrite Hb).
  rewrite (bind_run _ _ _ _ _ Hbl).
  apply bind_raise. unfold add_basemap.
  change (tiles (log (EReadFile p) w)) with (tiles w).
  change (ax_xlim (set_limits b (Ax.plot_gdf (reprojected w gdf) subplots)))
    with (view_xlim b).
  change (ax_ylim (set_limits b (Ax.plot_gdf (reprojected w gdf) subplots)))
    with (view_ylim b).
  by rewrite Htiles.
Qed.

Lemma tile_failure_stops_witness :
  create_base_map sample_path "out" offline_world
  = (Raise ConnectionError,
     log (EFetchTiles (view_xlim (10000, 20000, 30000, 60000))
                      (view_ylim (10000, 20000, 30000, 60000)))
         (log (EReadFile sample_path) offline_world)).
Proof.
  apply (tile_failure_stops sample_path "out" offline_world sample_gdf
           (10000, 20000, 30000, 60000)); reflexivity.
Defined.

(** X8. When the image cannot be written, the run stops with that failure
    and writes no file, but the output directory it made just before
    stays. *)
Theorem write_failure_keeps_directory (p d : string) (w : World)
    (gdf : GeoDataFrame) (b : Bounds) (img : Image) :
  files w !! p = Some (VectorFile gdf) ->
  assignable gdf = true ->
  total_bounds (reprojected w gdf) = Some b ->
  tiles w (view_xlim b) (view_ylim b) = Some img ->
  creatable w d = true ->
  writable w (output_path p d) = false ->
  fst (create_base_map p d w) = Raise OSError
  /\ files (after (create_base_map p d) w) = files w
  /\ d ∈ dirs (after (create_base_map p d) w).
Proof.
  intros Hfile Hassign Hb Htiles Hd Hw. unfold after, create_base_map.
  assert (read_file p w = (Ok gdf, log (EReadFile p) w)) as Hread
    by (unfold read_file; by rewrite Hfile).
  rewrite (bind_run _ _ _ _ _ Hread).
  rewrite (bind_assoc (set_crs epsg_4326 gdf) (to_crs epsg_3857)).
  assert ((set_crs epsg_4326 gdf ≫= to_crs epsg_3857) (log (EReadFile p) w)
          = (Ok (reprojected w gdf), log (EReadFile p) w)) as Hcrs
    by (by rewrite set_crs_to_crs, Hassign).
  rewrite (bind_run _ _ _ _ _ Hcrs). cbv zeta.
  assert (bounds_for_limits (reprojected w gdf) (log (EReadFile p) w)
          = (Ok b, log (EReadFile p) w)) as Hbl
    by (unfold bounds_for_limits; by rewrite Hb).
  rewrite (bind_run _ _ _ _ _ Hbl).
  set (w2 := log (EFetchTiles (view_xlim b) (view_ylim b)) (log (EReadFile p) w)).
  assert (add_basemap (set_limits b (Ax.plot_gdf (reprojected w gdf) subplots))
            (log (EReadFile p) w)
          = (Ok (with_basemap img attribution
                   (set_limits b (Ax.plot_gdf (reprojected w gdf) subplots))), w2))
    as Hab.
  { unfold add_basemap.
    change (tiles (log (EReadFile p) w)) with (tiles w).
    change (ax_xlim (set_limits b (Ax.plot_gdf (reprojected w gdf) subplots)))
      with (view_xlim b).
    change (ax_ylim (set_limits b (Ax.plot_gdf (reprojected w gdf) subplots)))
      with (view_ylim b).
    by rewrite Htiles. }
  rewrite (bind_run _ _ _ _ _ Hab).
  assert (Transformer_from_crs epsg_3857 epsg_4326 w2
          = (Ok (transform w epsg_3857 epsg_4326), w2)) as Htr by reflexivity.
  rewrite (bind_run _ _ _ _ _ Htr).
  destruct (makedirs d w2) as [o w3] eqn:Hmk.
  pose proof (makedirs_creatable d w2) as Ho. rewrite Hmk in Ho. cbn [fst] in Ho.
  change (creatable w2 d) with (creatable w d) in Ho. rewrite Hd in Ho. subst o.
  pose proof (makedirs_ok d w2 w3 Hmk) as (_ & Hf3 & Hw3 & _ & _ & _ & Hd3).
  rewrite (bind_run _ _ _ _ _ Hmk).
  match goal with
  | |- context [savefig ?path ?fig ≫= ?k] =>
      assert (savefig path fig w3 = (Raise OSError, log (ESaveFig path) w3)) as Hsave
  end.
  { unfold savefig. rewrite Hw3. change (writable w2) with (writable w). by rewrite Hw. }
  rewrite (bind_raise _ _ _ _ _ Hsave). cbn [fst snd log files dirs].
  split; [reflexivity|]. split; [by rewrite Hf3|exact Hd3].
Qed.

Lemma write_failure_keeps_directory_witness :
  fst (create_base_map sample_path "out" no_image_world) = Raise OSError
  /\ files (after (create_base_map sample_path "out") no_image_world)
     = files no_image_world
  /\ "out" ∈ dirs (after (create_base_map sample_path "out") no_image_world).
Proof.
  apply (write_failure_keeps_directory sample_path "out" no_image_world sample_gdf
           (10000, 20000, 30000, 60000) (TileImage 1)); reflexivity.
Defined.

(** X9. The figure a run saves shows every feature of the input, each
    coordinate reprojected, over the image the tile service sent for the
    view of the figure; it has the grid, the one legend entry, the title
    made from the file name, the two axis labels, and the north arrow
    pointing up from 0.90 to 0.95 of the height at 0.95 of the width. *)
Theorem figure_contents (p d : string) (w : World) (gdf : GeoDataFrame) :
  files w !! p = Some (VectorFile gdf) ->
  completes (create_base_map p d) w ->
  exists fig,
    files (after (create_base_map p d) w) !! output_path p d = Some (PngFile fig)
    /\ ax_polygons fig
       = map (map (transform w epsg_4326 epsg_3857)) (gdf_geometry gdf)
    /\ ax_basemap fig = tiles w (ax_xlim fig) (ax_ylim fig)
    /\ ax_grid fig = true
    /\ ax_legend fig = ["Study Area"]
    /\ ax_title fig = map_title p
    /\ ax_xlabel fig = "Longitude"
    /\ ax_ylabel fig = "Latitude"
    /\ ax_annotations fig = [mkAnnotation "N" (0.95, 0.95) (0.95, 0.95 - 0.05)].
Proof.
  intros Hfile Hrun.
  destruct (create_base_map_completes p d w Hrun)
    as (gdf' & b & img & Hfile' & _ & _ & Htiles & Hfiles & _).
  rewrite Hfile in Hfile'. injection Hfile' as <-.
  eexists. split; [rewrite Hfiles; apply lookup_insert_eq|].
  rewrite figure_xlim, figure_ylim, Htiles. by repeat split.
Qed.

Lemma figure_contents_witness :
  exists fig,
    files (after (create_base_map sample_path "out") sample_world)
      !! output_path sample_path "out" = Some (PngFile fig)
    /\ ax_polygons fig
       = map (map (sample_transform epsg_4326 epsg_3857)) (gdf_geometry sample_gdf)
    /\ ax_basemap fig = Some (TileImage 1)
    /\ ax_grid fig = true
    /\ ax_legend fig = ["Study Area"]
    /\ ax_title fig = "Study Area"
    /\ ax_xlabel fig = "Longitude"
    /\ ax_ylabel fig = "Latitude"
    /\ ax_annotations fig = [mkAnnotation "N" (0.95, 0.95) (0.95, 0.95 - 0.05)].
Proof.
  apply (figure_contents sample_path "out" sample_world sample_gdf);
    [reflexivity|vm_compute; reflexivity].
Defined.

(** X10. For a path that exists, the entry point makes the output directory
    before it reads the file: where the directory can be made it is there
    after the run however the run ends, and the run has tested the path,
    made the directory, announced the work and opened the file, in this
    order. *)
Theorem output_dir_made_before_reading (w : World) (line : string)
    (rest : list string) :
  stdin w = line :: rest ->
  found w (clean_path line) = true ->
  creatable w output_dir = true ->
  output_dir ∈ dirs (snd (main w))
  /\ exists es,
       new_events w (snd (main w))
       = ([EPrint "Please enter the path to your shapefile/GeoJSON file:";
           EInput;
           EExists (clean_path line);
           EMakedirs output_dir;
           EPrint ("Processing shapefile: " +:+ clean_path line);
           EPrint ("Output will be saved to: " +:+ output_dir);
           EReadFile (clean_path line)] ++ es)%list.
Proof.
  intros Hin Hfound Hd. rewrite (main_run w line rest Hin), Hfound.
  set (p := clean_path line). set (w1 := checked w rest p). unfold process.
  destruct (makedirs output_dir w1) as [o w2] eqn:Hmk.
  pose proof (makedirs_creatable output_dir w1) as Ho. rewrite Hmk in Ho.
  cbn [fst] in Ho. change (creatable w1 output_dir) with (creatable w output_dir) in Ho.
  rewrite Hd in Ho. subst o.
  pose proof (makedirs_ok _ _ _ Hmk) as (_ & _ & _ & _ & _ & Hev & Hdir).
  rewrite (bind_run _ _ _ _ _ Hmk).
  rewrite (bind_run (print _) _ w2 _ tt eq_refl).
  rewrite (bind_run (print _) _ _ _ tt eq_refl).
  match goal with
  | |- context [create_base_map p output_dir ?w'] => set (w4 := w')
  end.
  split.
  - destruct (steady_create_base_map p output_dir w4) as (_ & Hsub & _).
    apply Hsub. exact Hdir.
  - destruct (create_base_map_reads_first p output_dir w4) as [es Hes].
    exists es. unfold new_events. rewrite Hes. unfold w4. cbn [events log].
    rewrite Hev. unfold w1, checked. cbn [events].
    rewrite <- !List.app_assoc. rewrite drop_app_length. reflexivity.
Qed.

Lemma output_dir_made_before_reading_witness :
  fst (main broken_world) = Raise DataSourceError
  /\ output_dir ∈ dirs (snd (main broken_world)).
Proof.
  split; [reflexivity|].
  exact (proj1 (output_dir_made_before_reading broken_world "/data/notes.txt" []
                  eq_refl eq_refl eq_refl)).
Defined.

(** X11. For a path that exists, when the output directory is not there and
    cannot be made, the run stops with that failure right after testing the
    path: the input file is not opened. *)
Theorem uncreatable_dir_stops (w : World) (line : string) (rest : list string) :
  stdin w = line :: rest ->
  found w (clean_path line) = true ->
  creatable w output_dir = false ->
  fst (main w) = Raise OSError
  /\ new_events w (snd (main w))
     = [EPrint "Please enter the path to your shapefile/GeoJSON file:";
        EInput;
        EExists (clean_path line);
        EMakedirs output_dir]
  /\ files (snd (main w)) = files w
  /\ dirs (snd (main w)) = dirs w.
Proof.
  intros Hin Hfound Hd. rewrite (main_run w line rest Hin), Hfound. unfold process.
  assert (makedirs output_dir (checked w rest (clean_path line))
          = (Raise OSError, log (EMakedirs output_dir) (checked w rest (clean_path line))))
    as Hmk by (by apply makedirs_fail).
  rewrite (bind_raise _ _ _ _ _ Hmk). cbn [fst snd].
  split; [reflexivity|]. split; [|done].
  unfold new_events, log, checked. cbn [events].
  rewrite <- List.app_assoc. apply drop_app_length.
Qed.

Lemma uncreatable_dir_stops_witness :
  fst (main readonly_world) = Raise OSError
  /\ new_events readonly_world (snd (main readonly_world))
     = [EPrint "Please enter the path to your shapefile/GeoJSON file:";
        EInput;
        EExists (clean_path sample_path);
        EMakedirs output_dir]
  /\ files (snd (main readonly_world)) = files readonly_world
  /\ dirs (snd (main readonly_world)) = dirs readonly_world.
Proof.
  apply (uncreatable_dir_stops readonly_world sample_path []); reflexivity.
Defined.

(** X12. At the end of standard input the entry point prints its prompt,
    fails to read a line and stops with that exception, status 1; it tests
    no path and touches no file or directory. *)
Theorem end_of_input_raises (w : World) :
  stdin w = [] ->
  fst (main w) = Raise EOFError
  /\ exit_status (fst (main w)) = 1%Z
  /\ new_events w (snd (main w))
     = [EPrint "Please enter the path to your shapefile/GeoJSON file:"; EInput]
  /\ files (snd (main w)) = files w
  /\ dirs (snd (main w)) = dirs w.
Proof.
  intros Hin. rewrite (main_eof w Hin). cbn [fst snd exit_status].
  repeat apply conj; try reflexivity.
  unfold new_events, log. cbn [events].
  rewrite <- List.app_assoc. apply drop_app_length.
Qed.

Lemma end_of_input_raises_witness :
  fst (main eof_world) = Raise EOFError
  /\ exit_status (fst (main eof_world)) = 1%Z
  /\ new_events eof_world (snd (main eof_world))
     = [EPrint "Please enter the path to your shapefile/GeoJSON file:"; EInput]
  /\ files (snd (main eof_world)) = files eof_world
  /\ dirs (snd (main eof_world)) = dirs eof_world.
Proof. apply (end_of_input_raises eof_world). reflexivity. Defined.

(** X13. A run of the program that ends normally has found the path and
    has done exactly this, in this order: prompt, read the line, test the
    path, make the output directory, two announcements, read the file,
    one request for the tiles of the view set on the axes, make the output
    directory again, write the image, report it, show the figure. *)
Theorem successful_run_trace (w : World) (line : string) (rest : list string) :
  stdin w = line :: rest ->
  completes main w ->
  found w (clean_path line) = true
  /\ exists b,
       new_events w (snd (main w))
       = [EPrint "Please enter the path to your shapefile/GeoJSON file:";
          EInput;
          EExists (clean_path line);
          EMakedirs output_dir;
          EPrint ("Processing shapefile: " +:+ clean_path line);
          EPrint ("Output will be saved to: " +:+ output_dir);
          EReadFile (clean_path line);
          EFetchTiles (view_xlim b) (view_ylim b);
          EMakedirs output_dir;
          ESaveFig (output_path (clean_path line) output_dir);
          EPrint ("Base map saved to: " +:+ output_path (clean_path line) output_dir);
          EShow].
Proof.
  intros Hin. unfold completes. rewrite (main_run w line rest Hin).
  destruct (found w (clean_path line)); [|intros H; discriminate H].
  set (p := clean_path line). set (w1 := checked w rest p).
  intros Hok. split; [reflexivity|].
  destruct (process p w1) as [o w'] eqn:Hrun. cbn [fst snd] in *. subst o.
  unfold process in Hrun.
  apply bind_ok in Hrun as ([] & w2 & Hmk & Hrun).
  apply makedirs_ok in Hmk as (_ & _ & _ & _ & _ & Hev2 & _).
  apply bind_ok in Hrun as ([] & w3 & Hp1 & Hrun). injection Hp1 as <-.
  apply bind_ok in Hrun as ([] & w4 & Hp2 & Hrun). injection Hp2 as <-.
  assert (completes (create_base_map p output_dir)
            (log (EPrint ("Output will be saved to: " +:+ output_dir))
               (log (EPrint ("Processing shapefile: " +:+ p)) w2))) as Hc
    by (unfold completes; by rewrite Hrun).
  destruct (create_base_map_completes _ _ _ Hc)
    as (_ & b & _ & _ & _ & _ & _ & _ & Hev).
  unfold after in Hev. rewrite Hrun in Hev. cbn [snd] in Hev.
  exists b. unfold new_events. rewrite Hev. cbn [events log]. rewrite Hev2.
  unfold w1, checked. cbn [events].
  rewrite <- !List.app_assoc. rewrite drop_app_length. reflexivity.
Qed.

Lemma successful_run_trace_witness :
  found sample_world (clean_path sample_line) = true
  /\ exists b,
       new_events sample_world (snd (main sample_world))
       = [EPrint "Please enter the path to your shapefile/GeoJSON file:";
          EInput;
          EExists (clean_path sample_line);
          EMakedirs output_dir;
          EPrint ("Processing shapefile: " +:+ clean_path sample_line);
          EPrint ("Output will be saved to: " +:+ output_dir);
          EReadFile (clean_path sample_line);
          EFetchTiles (view_xlim b) (view_ylim b);
          EMakedirs output_dir;
          ESaveFig (output_path (clean_path sample_line) output_dir);
          EPrint ("Base map saved to: "
                  +:+ output_path (clean_path sample_line) output_dir);
          EShow].
Proof.
  apply (successful_run_trace sample_world sample_line []);
    [reflexivity|vm_compute; reflexivity].
Defined.


(** X15. Blanks that stand inside the quotes are not taken away: a path
    typed between quotes with blanks around it inside them is looked up
    with those blanks, and when nothing has that name the program reports
    the file as not found and exits with status 1. *)
Theorem blanks_inside_quotes_kept (w : World) (wl ql m qr wr : string)
    (rest : list string) :
  all_chars isspace wl = true -> all_chars isspace wr = true ->
  all_chars isquote ql = true -> all_chars isquote qr = true ->
  nonempty ql = true -> nonempty qr = true ->
  no_edge isquote m = true ->
  stdin w = (wl +:+ ql +:+ m +:+ qr +:+ wr) :: rest ->
  found w m = false ->
  clean_path (wl +:+ ql +:+ m +:+ qr +:+ wr) = m
  /\ main w = (Exit 1, log (EPrint ("Error: File not found at " +:+ m))
                          (checked w rest m)).
Proof.
  intros Hwl Hwr Hql Hqr Hnl Hnr Hm Hin Hfound.
  pose proof (clean_path_between_quotes wl ql m qr wr Hwl Hwr Hql Hqr Hnl Hnr Hm)
    as Hclean.
  split; [exact Hclean|].
  by rewrite (main_run w _ rest Hin), Hclean, Hfound.
Qed.

Lemma blanks_inside_quotes_kept_witness :
  found spaced_world sample_path = true
  /\ clean_path spaced_line = " /data/study_area.shp "
  /\ main spaced_world
     = (Exit 1,
        log (EPrint ("Error: File not found at " +:+ " /data/study_area.shp "))
            (checked spaced_world [] " /data/study_area.shp ")).
Proof.
  split; [reflexivity|].
  apply (blanks_inside_quotes_kept spaced_world "" (String dquote EmptyString)
           " /data/study_area.shp " (String dquote EmptyString) "" []);
    reflexivity.
Defined.

(** X16. The name taken from the input path is empty exactly when the path
    is empty or ends in a slash; cutting the extension never empties a base
    name. In that case the image is called [_basemap.png]. *)
Theorem shapefile_name_empty (p : string) :
  (shapefile_name p = EmptyString <-> p = EmptyString \/ endswith slash p = true)
  /\ (shapefile_name p = EmptyString <-> basename p = EmptyString).
Proof.
  assert (shapefile_name p = EmptyString <-> basename p = EmptyString) as Hb.
  { unfold shapefile_name. split; [apply splitext_root_empty|by intros ->]. }
  split; [|exact Hb]. rewrite Hb. split.
  - intros He. destruct (basename_split p) as (dir_part & Hp & Hdir & _).
    rewrite He, app_empty_r in Hp. by subst dir_part.
  - intros [->|He]; [reflexivity|].
    destruct (endswith_split _ _ He) as [s' ->]. by apply basename_app_slash.
Qed.

(** X17. For a base name made of ASCII characters, the title holds no
    underscore, and it does not start with a lower case letter. *)
Theorem title_without_underscore (p : string) :
  is_ascii (shapefile_name p) = true ->
  all_chars not_underscore (map_title p) = true
  /\ (forall c, first_char (map_title p) = Some c -> islower c = false).
Proof.
  intros _. unfold map_title, title. split.
  - apply title_from_not_underscore, replace_not_underscore.
  - destruct (replace underscore space (shapefile_name p)) as [|a s]; [done|].
    cbn [title_from first_char]. intros c [= <-]. apply upper_not_lower.
Qed.

Lemma title_without_underscore_witness :
  is_ascii (shapefile_name sample_path) = true
  /\ all_chars not_underscore (map_title sample_path) = true
  /\ first_char (map_title sample_path) = Some "S"%char
  /\ islower "S"%char = false.
Proof.
  destruct (title_without_underscore sample_path eq_refl) as [H1 H2].
  split; [reflexivity|]. split; [exact H1|]. split; [reflexivity|].
  exact (H2 "S"%char eq_refl).
Defined.

End Extras.
